(** * The product API of server.js, as a shallow embedding

    The Express application of [server.js] keeps a list of product objects in
    process memory and serves create, read, update, delete, search, filter,
    pagination and statistics requests over it.  This file models the
    application as it is written: JavaScript objects as ordered property
    lists, the [products] array as a list that every handler receives and
    returns, thrown errors as values travelling down the middleware stack,
    and the stack itself as the list of layers in the order of the
    [app.use] / [app.get] / ... calls.

    What is outside the model: console output (the logger and
    [console.error] only print), the socket and the parsing of the request
    (a request arrives with its method, its decoded path segments, the
    [x-api-key] header, its query strings and its parsed JSON body), and the
    methods HEAD and OPTIONS, which Express answers by rules of its own.
    [uuidv4()] is an argument of the request: the string it returns this
    time.  JSON numbers are the doubles of the engine; the integers that
    [parseInt] and the counters produce are integers of [Z]. *)

From Stdlib Require Import ZArith String Ascii List Bool Lia Floats.
From stdpp Require Import base list strings pretty.

Import ListNotations.
Local Open Scope string_scope.
Local Open Scope Z_scope.

(** ** Strings *)

Module Str.

(** [String.prototype.toLowerCase] on the ASCII letters.  Strings are
    sequences of 8-bit characters here; characters above 127 are left
    alone, so the function is that of the engine on the strings whose
    characters are all ASCII ([ascii_only] below), and the statements that
    compare letters outside ASCII are limited to those. *)
Definition lower_ascii (a : ascii) : ascii :=
  let n := nat_of_ascii a in
  if ((65 <=? n)%nat && (n <=? 90)%nat)%bool then ascii_of_nat (n + 32) else a.

Fixpoint toLowerCase (s : string) : string :=
  match s with
  | EmptyString => EmptyString
  | String a r => String (lower_ascii a) (toLowerCase r)
  end.

(** [s.includes(t)]: [t] occurs in [s] as a contiguous substring. *)
Fixpoint includes (s t : string) : bool :=
  String.prefix t s ||
  match s with
  | EmptyString => false
  | String _ r => includes r t
  end.

(** The white space [parseInt] skips, among the ASCII characters. *)
Definition is_space (a : ascii) : bool :=
  let n := nat_of_ascii a in
  ((9 <=? n)%nat && (n <=? 13)%nat || (n =? 32)%nat)%bool.

Fixpoint skip_space (s : string) : string :=
  match s with
  | String a r => if is_space a then skip_space r else s
  | EmptyString => EmptyString
  end.

(** The value of a character as a digit in [radix], if it is one. *)
Definition digit (radix : Z) (a : ascii) : option Z :=
  let n := Z.of_nat (nat_of_ascii a) in
  let v := if (48 <=? n) && (n <=? 57) then Some (n - 48)
           else if (97 <=? n) && (n <=? 122) then Some (n - 87)
           else if (65 <=? n) && (n <=? 90) then Some (n - 55)
           else None in
  match v with
  | Some d => if d <? radix then Some d else None
  | None => None
  end.

(** The longest prefix of digits, read from the left; [None] when the
    string does not start with a digit. *)
Fixpoint digits (radix : Z) (acc : option Z) (s : string) : option Z :=
  match s with
  | EmptyString => acc
  | String a r =>
      match digit radix a with
      | Some d => digits radix (Some (radix * default 0 acc + d)) r
      | None => acc
      end
  end.

(** [parseInt(s)] without a radix argument: leading white space, an
    optional sign, an optional [0x] / [0X] prefix that switches to base
    16, then as many digits as there are.  [None] is [NaN].  The white
    space skipped is the ASCII one; the engine also skips the white space
    outside ASCII (the no-break space and the like).  The result is an
    integer of [Z]; the engine rounds results above [2^53] to the nearest
    double.  So the function is that of the engine on ASCII strings whose
    number is at most [2^53] in absolute value ([ascii_only] and [maxSafe]
    below). *)
Definition parseInt (s : string) : option Z :=
  let s1 := skip_space s in
  let '(sign, s2) :=
    match s1 with
    | String "-" r => (-1, r)
    | String "+" r => (1, r)
    | _ => (1, s1)
    end in
  let '(radix, s3) :=
    match s2 with
    | String "0" (String "x" r) => (16, r)
    | String "0" (String "X" r) => (16, r)
    | _ => (10, s2)
    end in
  match digits radix None s3 with
  | Some n => Some (sign * n)
  | None => None
  end.

End Str.

(** The double quote character, as a string. *)
Definition dquote : string := String (ascii_of_nat 34) EmptyString.

(** ** JavaScript values *)

(** The values [JSON.parse] produces.  A number is the double the engine
    holds. *)
#[warnings="-register-all"]
Inductive json : Type :=
| JNull
| JBool (b : bool)
| JNum (f : float)
| JStr (s : string)
| JArr (l : list json)
| JObj (o : list (string * json)).

(** An object is its own properties in the order they were written.  The
    type is shared by parsed request bodies, where a later member of the
    JSON text shadows an earlier one of the same name, and by the objects
    the handlers build. *)
Abbreviation props V := (list (string * V)).
Abbreviation obj := (props json).

(** A property read: [None] is [undefined]. *)
Definition value : Type := option json.

Module Obj.
Section Props.
Context {V : Type}.

(** [o[k]] for an own property: the last entry named [k]. *)
Fixpoint get (k : string) (o : props V) : option V :=
  match o with
  | [] => None
  | (k', v) :: r =>
      match get k r with
      | Some x => Some x
      | None => if String.eqb k' k then Some v else None
      end
  end.

Definition has (k : string) (o : props V) : bool :=
  match get k o with Some _ => true | None => false end.

(** [o[k] = v]: an existing property keeps its place, a new one goes
    last. *)
Definition set (k : string) (v : V) (o : props V) : props V :=
  if has k o
  then map (fun e => if String.eqb (fst e) k then (k, v) else e) o
  else (o ++ [(k, v)])%list.

(** [{...acc, ...src}]: every property of [src], in order, written
    onto [acc]. *)
Definition spread (src acc : props V) : props V :=
  fold_left (fun a e => set (fst e) (snd e) a) src acc.
End Props.
End Obj.

(** [!!v] *)
Definition truthy (v : value) : bool :=
  match v with
  | None | Some JNull => false
  | Some (JBool b) => b
  | Some (JNum f) => negb (PrimFloat.is_zero f || PrimFloat.is_nan f)
  | Some (JStr s) => negb (String.eqb s EmptyString)
  | Some (JArr _) | Some (JObj _) => true
  end.

Inductive jstype := TUndefined | TObject | TBoolean | TNumber | TString.

(** [typeof v] *)
Definition typeof (v : value) : jstype :=
  match v with
  | None => TUndefined
  | Some JNull | Some (JArr _) | Some (JObj _) => TObject
  | Some (JBool _) => TBoolean
  | Some (JNum _) => TNumber
  | Some (JStr _) => TString
  end.

Definition jstype_eqb (a b : jstype) : bool :=
  match a, b with
  | TUndefined, TUndefined | TObject, TObject | TBoolean, TBoolean
  | TNumber, TNumber | TString, TString => true
  | _, _ => false
  end.

(** ** Errors, requests and responses *)

(** An [Error] object as the error middleware reads it. *)
Module Err.
Record t := mk { name : string; message : string; statusCode : option Z }.
End Err.
Abbreviation error := Err.t.

Definition NotFoundError (msg : string) : error := Err.mk "NotFoundError" msg (Some 404).
Definition ValidationError (msg : string) : error := Err.mk "ValidationError" msg (Some 400).
Definition AuthError (msg : string) : error := Err.mk "AuthError" msg (Some 401).
(** The engine's own error for a property read on [undefined] or [null]
    and for a call of something that is not a function. *)
Definition TypeError (msg : string) : error := Err.mk "TypeError" msg None.

Inductive method := GET | POST | PUT | DELETE | PATCH.

Definition method_eqb (a b : method) : bool :=
  match a, b with
  | GET, GET | POST, POST | PUT, PUT | DELETE, DELETE | PATCH, PATCH => true
  | _, _ => false
  end.

(** [req.query], for the keys the handlers read.  A key given once has a
    string value; keys repeated or written with brackets, which the query
    parser turns into arrays and objects, are not modelled. *)
Module Query.
Record t := mk {
  category : option string;
  inStock : option string;
  page : option string;
  limit : option string;
  q : option string }.
Definition none : t := mk None None None None None.
End Query.

(** A request after parsing, with one of the five methods above; the
    answers of the framework to [HEAD] and [OPTIONS] are not modelled.
    [path] lists the segments after the leading slash of a path written
    without percent escapes, so that a segment as written, which the
    router compares with the literals of a route, is also the segment as
    decoded, which it hands over as [req.params.id]:
    [/api/products/1] is [["api"; "products"; "1"]], [/] is
    the one empty segment and a trailing slash leaves a last empty
    segment.  [apiKey] is
    [req.headers['x-api-key']].  [body] is [req.body]; a request without a
    JSON body has the empty object. *)
Module Req.
Record t := mk {
  method : method;
  path : list string;
  apiKey : option string;
  query : Query.t;
  body : json }.
End Req.
Abbreviation request := Req.t.

(** A counter of the statistics object: the result of [++] is a number
    or [NaN]. *)
Inductive count := NaN | Num (n : Z).

(** What a handler hands to [res.send] / [res.json], before
    serialisation, and the two pages Express writes by itself. *)
Inductive payload :=
| Text (s : string)
| Product (p : obj)
| Matches (l : list obj)
| Results (total : nat) (page limit : Z) (products : list obj)
| Stats (totalProducts inStock outOfStock : nat) (categories : props count)
| ErrorEnvelope (name message : string) (statusCode : Z)
    (* {error: {name, message, statusCode}} *)
| Empty
| DefaultErrorPage (e : error)
    (* text/html page of Express's final handler for an error nobody
       handled; outside production it prints e.stack *)
| DefaultNotFoundPage.
    (* text/html "Cannot METHOD path" *)

Module Res.
Record t := mk { status : Z; payload : payload }.
End Res.
Abbreviation response := Res.t.

(** The [products] array. *)
Abbreviation store := (list obj).

(** What a middleware or handler does with a request: call [next()],
    write the response, or throw.  The store comes back in every case. *)
Inductive outcome := Next | Respond (r : response) | Throw (e : error).

(** [failable A]: a computation that returns or throws. *)
Definition failable (A : Type) : Type := (error + A)%type.

Definition bind {A B} (m : failable A) (k : A -> failable B) : failable B :=
  match m with
  | inl e => inl e
  | inr a => k a
  end.

Notation "'let*' x := m 'in' k" := (bind m (fun x => k))
  (at level 10, x name, m at level 200, k at level 200, only parsing).

(** [l.filter(f)] where the callback may throw: the first throw ends the
    loop. *)
Fixpoint filter_throwing {A} (f : A -> failable bool) (l : list A) : failable (list A) :=
  match l with
  | [] => inr []
  | x :: r =>
      match f x with
      | inl e => inl e
      | inr b =>
          match filter_throwing f r with
          | inl e => inl e
          | inr r' => inr (if b then x :: r' else r')
          end
      end
  end.

(** [l.slice(start, end)]: a negative index counts from the end, both are
    clamped to the length. *)
Definition slice {A} (l : list A) (start end_ : Z) : list A :=
  let len := Z.of_nat (length l) in
  let rel i := if i <? 0 then Z.max (len + i) 0 else Z.min i len in
  let k := rel start in
  let final := rel end_ in
  take (Z.to_nat (final - k)) (drop (Z.to_nat k) l).

(** [l.findIndex(f)]; [None] is [-1]. *)
Fixpoint findIndex {A} (f : A -> bool) (l : list A) : option nat :=
  match l with
  | [] => None
  | x :: r => if f x then Some 0%nat else S <$> findIndex f r
  end.

(** The own enumerable properties an object spread copies from a value. *)
Definition own_props (v : json) : obj :=
  match v with
  | JObj o => o
  | JArr l => imap (fun i x => (pretty i, x)) l
  | JStr s => imap (fun i a => (pretty i, JStr (String a EmptyString))) (list_ascii_of_string s)
  | JNull | JBool _ | JNum _ => []
  end.

(** [b.k] for the request body [b]: reading a property of [null] throws,
    and none of the keys read here exists on an array, a string, a number
    or a boolean. *)
Definition member (b : json) (k : string) : failable value :=
  match b with
  | JNull => inl (TypeError ("Cannot read properties of null (reading '" ++ k ++ "')"))
  | JObj o => inr (Obj.get k o)
  | _ => inr None
  end.

(** ** Middleware *)

(** A middleware or route handler: it sees [req.params.id] (when the
    route has the parameter), the request and the store. *)
Definition handler : Type := option string -> request -> store -> store * outcome.

(** [bodyParser.json()] on a request whose body it accepts: [req.body]
    is already the parsed value and the middleware calls [next].  The
    bodies it refuses (JSON that does not parse, a body over the size
    limit), for which it passes an error of its own with status 400 or
    413 to [next], are not requests of this model. *)
Definition bodyParser_json : handler := fun _ _ products => (products, Next).

Definition loggerMiddleware : handler := fun _ _ products => (products, Next).

Definition apiKeyMiddleware : handler := fun _ req products =>
  let apiKey := Req.apiKey req in
  let falsy :=
    match apiKey with None => true | Some k => String.eqb k EmptyString end in
  let differs :=
    match apiKey with
    | None => true
    | Some k => negb (String.eqb k "secret-api-key")
    end in
  if falsy || differs
  then (products, Throw (AuthError "Invalid or missing API key"))
  else (products, Next).

(** [v <= 0], reached only when [typeof v] is ['number']. *)
Definition le_zero (v : value) : bool :=
  match v with
  | Some (JNum f) => PrimFloat.leb f 0%float
  | _ => false
  end.

(** The five checks of the validation middleware on [req.body]. *)
Definition validateProduct (product : json) : failable unit :=
  let* name := member product "name" in
  if negb (truthy name) || negb (jstype_eqb (typeof name) TString)
  then inl (ValidationError "Product name is required and must be a string") else
  let* description := member product "description" in
  if negb (truthy description) || negb (jstype_eqb (typeof description) TString)
  then inl (ValidationError "Product description is required and must be a string") else
  let* price := member product "price" in
  if negb (truthy price) || negb (jstype_eqb (typeof price) TNumber) || le_zero price
  then inl (ValidationError "Product price is required and must be a positive number") else
  let* category := member product "category" in
  if negb (truthy category) || negb (jstype_eqb (typeof category) TString)
  then inl (ValidationError "Product category is required and must be a string") else
  let* inStock := member product "inStock" in
  if negb (jstype_eqb (typeof inStock) TBoolean)
  then inl (ValidationError "Product inStock status is required and must be a boolean") else
  inr tt.

Definition validateProductMiddleware : handler := fun _ req products =>
  match validateProduct (Req.body req) with
  | inl e => (products, Throw e)
  | inr _ => (products, Next)
  end.

(** ** The sample products *)

Definition laptop : obj :=
  [("id", JStr "1"); ("name", JStr "Laptop");
   ("description", JStr "High-performance laptop with 16GB RAM");
   ("price", JNum 1200%float); ("category", JStr "electronics");
   ("inStock", JBool true)].

Definition smartphone : obj :=
  [("id", JStr "2"); ("name", JStr "Smartphone");
   ("description", JStr "Latest model with 128GB storage");
   ("price", JNum 800%float); ("category", JStr "electronics");
   ("inStock", JBool true)].

Definition coffeeMaker : obj :=
  [("id", JStr "3"); ("name", JStr "Coffee Maker");
   ("description", JStr "Programmable coffee maker with timer");
   ("price", JNum 50%float); ("category", JStr "kitchen");
   ("inStock", JBool false)].

Definition seed : store := [laptop; smartphone; coffeeMaker].

(** ** Route handlers *)

Definition ok (p : payload) : outcome := Respond (Res.mk 200 p).

(** [if (s)] for a query string. *)
Definition given (s : option string) : option string :=
  match s with
  | Some x => if String.eqb x EmptyString then None else Some x
  | None => None
  end.

(** [product.k.toLowerCase()] *)
Definition lowered (k : string) (product : obj) : failable string :=
  match Obj.get k product with
  | Some (JStr s) => inr (Str.toLowerCase s)
  | None => inl (TypeError "Cannot read properties of undefined (reading 'toLowerCase')")
  | Some JNull => inl (TypeError "Cannot read properties of null (reading 'toLowerCase')")
  | Some _ => inl (TypeError ("product." ++ k ++ ".toLowerCase is not a function"))
  end.

(** The category filter of [GET /api/products]. *)
Definition byCategory (category : string) (products : list obj) : failable (list obj) :=
  filter_throwing
    (fun product =>
       let* c := lowered "category" product in
       inr (String.eqb c (Str.toLowerCase category)))
    products.

(** [v === b] for a boolean [b]. *)
Definition is_bool (b : bool) (v : value) : bool :=
  match v with
  | Some (JBool x) => Bool.eqb x b
  | _ => false
  end.

(** The stock filter of [GET /api/products]. *)
Definition byStock (inStockParam : string) (products : list obj) : list obj :=
  let inStock := String.eqb (Str.toLowerCase inStockParam) "true" in
  List.filter (fun product => is_bool inStock (Obj.get "inStock" product)) products.

(** [if (req.query.category) { ... }] *)
Definition filterByCategory (category : option string) (products : list obj)
  : failable (list obj) :=
  match given category with
  | Some c => byCategory c products
  | None => inr products
  end.

(** [if (req.query.inStock) { ... }] *)
Definition filterByStock (inStock : option string) (products : list obj) : list obj :=
  match given inStock with
  | Some s => byStock s products
  | None => products
  end.

Definition filterProducts (query : Query.t) (products : list obj) : failable (list obj) :=
  let* filtered := filterByCategory (Query.category query) products in
  inr (filterByStock (Query.inStock query) filtered).

(** [parseInt(v) || d]: [NaN] and [0] give the default. *)
Definition intOr (d : Z) (v : option string) : Z :=
  match v with
  | Some s =>
      match Str.parseInt s with
      | Some n => if n =? 0 then d else n
      | None => d
      end
  | None => d
  end.

Definition paginate (query : Query.t) (filteredProducts : list obj) : payload :=
  let page := intOr 1 (Query.page query) in
  let limit := intOr 10 (Query.limit query) in
  let startIndex := (page - 1) * limit in
  let endIndex := page * limit in
  Results (length filteredProducts) page limit
          (slice filteredProducts startIndex endIndex).

Definition getProducts : handler := fun _ req products =>
  match filterProducts (Req.query req) products with
  | inl e => (products, Throw e)
  | inr filteredProducts => (products, ok (paginate (Req.query req) filteredProducts))
  end.

Definition searchProducts : handler := fun _ req products =>
  match given (Query.q (Req.query req)) with
  | None =>
      (products,
       Throw (ValidationError
                ("Search query parameter " ++ dquote ++ "q" ++ dquote ++ " is required")))
  | Some q =>
      let searchTerm := Str.toLowerCase q in
      match filter_throwing
              (fun product =>
                 let* n := lowered "name" product in
                 inr (Str.includes n searchTerm))
              products with
      | inl e => (products, Throw e)
      | inr matchedProducts => (products, ok (Matches matchedProducts))
      end
  end.

(** [p.id === id] *)
Definition has_id (id : string) (p : obj) : bool :=
  match Obj.get "id" p with
  | Some (JStr s) => String.eqb s id
  | _ => false
  end.

(** [req.params.id] in a route that declares [:id]. *)
Definition param (id : option string) : string := default EmptyString id.

Definition getProduct : handler := fun id _ products =>
  match List.find (has_id (param id)) products with
  | None => (products, Throw (NotFoundError "Product not found"))
  | Some product => (products, ok (Product product))
  end.

(** [{ id: uuidv4(), ...req.body }] *)
Definition newProduct (uuid : string) (body : json) : obj :=
  Obj.spread (own_props body) [("id", JStr uuid)].

(** The handler of [POST /api/products]; [uuid] is what [uuidv4()] returns
    in this request. *)
Definition createProduct (uuid : string) : handler := fun _ req products =>
  let product := newProduct uuid (Req.body req) in
  ((products ++ [product])%list, Respond (Res.mk 201 (Product product))).

(** [{ ...existing, ...req.body, id: req.params.id }] *)
Definition updatedProduct (existing : obj) (body : json) (id : string) : obj :=
  Obj.set "id" (JStr id) (Obj.spread (own_props body) (Obj.spread existing [])).

Definition updateProduct : handler := fun id req products =>
  match findIndex (has_id (param id)) products with
  | None => (products, Throw (NotFoundError "Product not found"))
  | Some productIndex =>
      let existing := default [] (products !! productIndex) in
      let product := updatedProduct existing (Req.body req) (param id) in
      (<[productIndex := product]> products, ok (Product product))
  end.

Definition deleteProduct : handler := fun id _ products =>
  match findIndex (has_id (param id)) products with
  | None => (products, Throw (NotFoundError "Product not found"))
  | Some _ =>
      (List.filter (fun p => negb (has_id (param id) p)) products,
       Respond (Res.mk 204 Empty))
  end.

Definition welcome : handler := fun _ _ products =>
  (products,
   ok (Text "Welcome to the Product API! Go to /api/products to see all products.")).

(** The error-handling middleware. *)
Definition errorHandler (err : error) : response :=
  let statusCode :=
    match Err.statusCode err with
    | Some c => if c =? 0 then 500 else c
    | None => 500
    end in
  let message :=
    if String.eqb (Err.message err) EmptyString then "Internal Server Error"
    else Err.message err in
  let name :=
    if String.eqb (Err.name err) EmptyString then "Error" else Err.name err in
  Res.mk statusCode (ErrorEnvelope name message statusCode).

(** The last [app.use]: the 404 handler. *)
Definition notFound : handler := fun _ _ products =>
  (products, Throw (NotFoundError "Endpoint not found")).

(** ** Statistics *)

(** The names [Object.prototype] defines.  A read of one of them on an
    object literal that has no own property of the name finds the
    inherited method (or, for [__proto__], the prototype itself). *)
Definition objectPrototypeKeys : list string :=
  ["constructor"; "hasOwnProperty"; "isPrototypeOf"; "propertyIsEnumerable";
   "toLocaleString"; "toString"; "valueOf"; "__proto__";
   "__defineGetter__"; "__defineSetter__"; "__lookupGetter__"; "__lookupSetter__"].

Definition inherited (k : string) : bool :=
  existsb (String.eqb k) objectPrototypeKeys.

(** The result of reading [stats.categories[k]]. *)
Inductive slot := Own (c : count) | Inherited | Missing.

Definition read (categories : props count) (k : string) : slot :=
  match Obj.get k categories with
  | Some c => Own c
  | None => if inherited k then Inherited else Missing
  end.

(** [!v] for what a read returns: an inherited function or object is
    truthy. *)
Definition slot_falsy (v : slot) : bool :=
  match v with
  | Own NaN => true
  | Own (Num n) => n =? 0
  | Inherited => false
  | Missing => true
  end.

(** [v + 1] as [++] computes it: a function, an object and [undefined]
    convert to [NaN]. *)
Definition incremented (v : slot) : count :=
  match v with
  | Own (Num n) => Num (n + 1)
  | Own NaN | Inherited | Missing => NaN
  end.

(** [stats.categories[k] = c]: the setter of [__proto__] ignores a
    number, every other name becomes an own property. *)
Definition assign (k : string) (c : count) (categories : props count) : props count :=
  if String.eqb k "__proto__" then categories else Obj.set k c categories.

(** The body of the [forEach] callback for a product of category [k]. *)
Definition countCategory (categories : props count) (k : string) : props count :=
  let categories1 :=
    if slot_falsy (read categories k) then assign k (Num 0) categories
    else categories in
  assign k (incremented (read categories1 k)) categories1.

(** ** Express: routes and the middleware stack *)

(** A route path: literal segments, then possibly one [:id] parameter. *)
Record pattern := Path { literals : list string; with_id : bool }.

(** One trailing slash is optional. *)
Definition strip_slash (segments : list string) : list string :=
  match reverse segments with
  | s :: r => if String.eqb s EmptyString then reverse r else segments
  | [] => segments
  end.

(** Literal segments match without regard to case; the parameter takes
    one segment that is not empty. *)
Fixpoint match_segments (lits : list string) (id : bool) (segments : list string)
  : option (option string) :=
  match lits, segments with
  | l :: ls, s :: ss =>
      if String.eqb (Str.toLowerCase s) l then match_segments ls id ss else None
  | [], [] => if id then None else Some None
  | [], [x] => if id && negb (String.eqb x EmptyString) then Some (Some x) else None
  | _, _ => None
  end.

Definition match_path (p : pattern) (segments : list string) : option (option string) :=
  match_segments (literals p) (with_id p) (strip_slash segments).

(** A layer of the stack, in the order of registration: [app.use(fn)],
    [app.use((err, req, res, next) => ...)], or a route with its chain. *)
Inductive layer :=
| Use (h : handler)
| UseError (h : error -> response)
| Route (m : method) (p : pattern) (chain : list handler).

(** The handlers of a matched route, in turn, until one responds or
    throws. *)
Fixpoint run (chain : list handler) (id : option string) (req : request)
  (products : store) : store * outcome :=
  match chain with
  | [] => (products, Next)
  | h :: rest =>
      match h id req products with
      | (products', Next) => run rest id req products'
      | result => result
      end
  end.

(** Express's final handler, reached when the stack is exhausted: an
    error still pending gets the default error page with the error's
    status (500 unless it is in the 4xx or 5xx range), no error gets the
    default 404 page. *)
Definition finalhandler (pending : option error) : response :=
  match pending with
  | Some e =>
      let status :=
        match Err.statusCode e with
        | Some c => if (400 <=? c) && (c <? 600) then c else 500
        | None => 500
        end in
      Res.mk status (DefaultErrorPage e)
  | None => Res.mk 404 DefaultNotFoundPage
  end.

(** The walk down the stack.  With an error pending only error
    middleware runs, and only that which comes later in the stack;
    without one, error middleware is skipped. *)
Fixpoint dispatch (stack : list layer) (pending : option error) (req : request)
  (products : store) : store * response :=
  match stack with
  | [] => (products, finalhandler pending)
  | l :: rest =>
      match pending, l with
      | Some e, UseError h => (products, h e)
      | Some e, _ => dispatch rest (Some e) req products
      | None, UseError _ => dispatch rest None req products
      | None, Use h =>
          match h None req products with
          | (products', Next) => dispatch rest None req products'
          | (products', Respond r) => (products', r)
          | (products', Throw e) => dispatch rest (Some e) req products'
          end
      | None, Route m p chain =>
          if method_eqb m (Req.method req) then
            match match_path p (Req.path req) with
            | Some id =>
                match run chain id req products with
                | (products', Next) => dispatch rest None req products'
                | (products', Respond r) => (products', r)
                | (products', Throw e) => dispatch rest (Some e) req products'
                end
            | None => dispatch rest None req products
            end
          else dispatch rest None req products
      end
  end.

(** ** The application *)

Section Engine.

(** The engine's conversion of a number, an array or an object to a
    property key; [None] when it throws.  It is needed only for a
    stored record whose [category] is not a string. *)
Variable toPropertyKey : json -> option string.

(** [product.category] as a property key. *)
Definition categoryKey (product : obj) : failable string :=
  match Obj.get "category" product with
  | Some (JStr s) => inr s
  | None => inr "undefined"
  | Some JNull => inr "null"
  | Some (JBool true) => inr "true"
  | Some (JBool false) => inr "false"
  | Some v =>
      match toPropertyKey v with
      | Some k => inr k
      | None => inl (TypeError "Cannot convert object to primitive value")
      end
  end.

(** The [forEach] loop over the store, from the empty object. *)
Fixpoint countCategories (categories : props count) (products : list obj)
  : failable (props count) :=
  match products with
  | [] => inr categories
  | product :: rest =>
      let* k := categoryKey product in
      countCategories (countCategory categories k) rest
  end.

Definition getStats : handler := fun _ _ products =>
  let totalProducts := length products in
  let inStock :=
    length (List.filter (fun p => truthy (Obj.get "inStock" p)) products) in
  let outOfStock :=
    length (List.filter (fun p => negb (truthy (Obj.get "inStock" p))) products) in
  match countCategories [] products with
  | inl e => (products, Throw e)
  | inr categories =>
      (products, ok (Stats totalProducts inStock outOfStock categories))
  end.

(** The stack of [server.js], in source order. *)
Definition app (uuid : string) : list layer :=
  [ Use bodyParser_json;
    Use loggerMiddleware;
    Route GET (Path [] false) [welcome];
    Route GET (Path ["api"; "products"] false) [getProducts];
    Route GET (Path ["api"; "products"; "search"] false) [searchProducts];
    Route GET (Path ["api"; "products"; "stats"] false) [getStats];
    Route GET (Path ["api"; "products"] true) [getProduct];
    Route POST (Path ["api"; "products"] false)
      [apiKeyMiddleware; validateProductMiddleware; createProduct uuid];
    Route PUT (Path ["api"; "products"] true)
      [apiKeyMiddleware; validateProductMiddleware; updateProduct];
    Route DELETE (Path ["api"; "products"] true)
      [apiKeyMiddleware; deleteProduct];
    UseError errorHandler;
    Use notFound ].

(** One request against the store: the new store and the response. *)
Definition handle (uuid : string) (req : request) (products : store)
  : store * response :=
  dispatch (app uuid) None req products.

(** The stores the server can be in. *)
Inductive reachable : store -> Prop :=
| reachable_seed : reachable seed
| reachable_step uuid req products :
    reachable products -> reachable (fst (handle uuid req products)).

End Engine.

(** ** Notions the properties are stated with *)

(** *** Routing *)

(** The caller sent the shared secret. *)
Definition authorized (req : request) : bool :=
  match Req.apiKey req with
  | Some k => String.eqb k "secret-api-key"
  | None => false
  end.

Definition secret : option string := Some "secret-api-key".

(** The request is for the route [m p], with [id] as [req.params.id]. *)
Definition routed (req : request) (m : method) (p : pattern) (id : option string) : Prop :=
  Req.method req = m /\ match_path p (Req.path req) = Some id.

(** The route table of the specification. *)
Definition routes : list (method * pattern) :=
  [ (GET, Path [] false);
    (GET, Path ["api"; "products"] false);
    (GET, Path ["api"; "products"; "search"] false);
    (GET, Path ["api"; "products"; "stats"] false);
    (GET, Path ["api"; "products"] true);
    (POST, Path ["api"; "products"] false);
    (PUT, Path ["api"; "products"] true);
    (DELETE, Path ["api"; "products"] true) ].

(** The request matches no route of the table. *)
Definition unrouted (req : request) : Prop :=
  Forall (fun r => Req.method req = fst r -> match_path (snd r) (Req.path req) = None)
         routes.

(** A handler that leaves the store alone and never calls [next()]. *)
Definition reads (h : handler) : Prop :=
  forall id req products,
    exists o, h id req products = (products, o) /\ o <> Next.

(** *** The store *)

(** The [id] of every stored record, in store order. *)
Definition ids (products : store) : list value := map (Obj.get "id") products.

(** The properties the validation middleware reads. *)
Definition checked : list string :=
  ["name"; "description"; "price"; "category"; "inStock"].

(** A record that passes the checks of the validation middleware. *)
Definition valid (p : obj) : Prop := validateProduct (JObj p) = inr tt.

(** The four shapes of the store after a request. *)
Inductive effect (uuid : string) (req : request) (products : store) : store -> Prop :=
| effect_none : effect uuid req products products
| effect_create :
    Req.method req = POST ->
    validateProduct (Req.body req) = inr tt ->
    effect uuid req products (products ++ [newProduct uuid (Req.body req)])%list
| effect_update id n existing :
    validateProduct (Req.body req) = inr tt ->
    findIndex (has_id id) products = Some n ->
    products !! n = Some existing ->
    effect uuid req products
           (<[n := updatedProduct existing (Req.body req) id]> products)
| effect_delete id :
    effect uuid req products (List.filter (fun p => negb (has_id id p)) products).

(** *** Filters and pages *)

(** The test of the category filter on a record whose category is a
    string. *)
Definition category_matches (category : string) (p : obj) : bool :=
  match Obj.get "category" p with
  | Some (JStr s) => String.eqb (Str.toLowerCase s) (Str.toLowerCase category)
  | _ => false
  end.

(** The stock filter as the specification words it for a supplied value:
    keep the records whose [inStock] equals the parsed boolean. *)
Definition spec_stock (supplied : string) (products : list obj) : list obj :=
  let wanted := String.eqb (Str.toLowerCase supplied) "true" in
  List.filter (fun p => is_bool wanted (Obj.get "inStock" p)) products.

(** The page as the specification words it: the elements whose index [i]
    satisfies [(P-1)*L <= i < min (P*L) N]. *)
Definition spec_page {A} (l : list A) (P L : Z) : list A :=
  let N := Z.of_nat (length l) in
  omap (fun '(i, x) =>
          if ((P - 1) * L <=? Z.of_nat i) && (Z.of_nat i <? Z.min (P * L) N)
          then Some x else None)
       (imap pair l).

(** *** Statistics *)

(** The records of category exactly [c], and their number. *)
Definition in_category (c : string) (p : obj) : bool :=
  match Obj.get "category" p with
  | Some (JStr s) => String.eqb s c
  | _ => false
  end.

Definition categoryCount (c : string) (products : store) : nat :=
  length (List.filter (in_category c) products).

(** No record has a category named like a property of [Object.prototype]. *)
Definition plain_categories (products : store) : Prop :=
  Forall (fun p => forall c, in_category c p = true -> inherited c = false) products.

(** The sum of the counters of a categories object, as [+] adds them. *)
Definition plus (a b : count) : count :=
  match a, b with
  | Num x, Num y => Num (x + y)
  | _, _ => NaN
  end.

Fixpoint sumCounts (categories : props count) : count :=
  match categories with
  | [] => Num 0
  | e :: rest => plus (snd e) (sumCounts rest)
  end.

(** The counter of [k] as a number, 0 when there is none, and the sum of
    the numeric counters. *)
Definition counter (categories : props count) (k : string) : Z :=
  match Obj.get k categories with
  | Some (Num n) => n
  | _ => 0
  end.

Fixpoint sumZ (categories : props count) : Z :=
  match categories with
  | [] => 0
  | e :: rest => match snd e with Num n => n | NaN => 0 end + sumZ rest
  end.

(** A categories object as the loop builds it when no name is inherited:
    one entry per name, every counter a positive number. *)
Definition counts_ok (categories : props count) : Prop :=
  NoDup (map fst categories) /\
  Forall (fun e => exists n, snd e = Num n /\ 0 < n) categories.

(** *** Requests, bodies and stores of the examples *)

(** An engine whose conversion always throws; no example stores a
    category that is not a string, so none reaches it. *)
Definition throwingKeys : json -> option string := fun _ => None.

Definition uuid1 : string := "9b1deb4d-3b7d-4bad-9bdd-2b0d7b3dcb6d".
Definition uuid2 : string := "0b2c7e2a-5a52-4b0c-9d43-7c1f6a1e8f10".

Definition get_ (path : list string) (query : Query.t) : request :=
  Req.mk GET path None query (JObj []).

Definition post_ (key : option string) (body : json) : request :=
  Req.mk POST ["api"; "products"] key Query.none body.

Definition put_ (id : string) (key : option string) (body : json) : request :=
  Req.mk PUT ["api"; "products"; id] key Query.none body.


Definition stockQuery (inStock : string) : Query.t :=
  Query.mk None (Some inStock) None None None.

(** A payload that passes validation. *)
Definition gadget (category : string) : obj :=
  [("name", JStr "Gadget"); ("description", JStr "A gadget");
   ("price", JNum 5%float); ("category", JStr category); ("inStock", JBool true)].

Definition withId1 : json := JObj (("id", JStr "1") :: gadget "tools").

Definition underpriced : json :=
  JObj [("name", JStr "Gadget"); ("description", JStr "A gadget");
        ("price", JNum (-5)%float); ("category", JStr "tools");
        ("inStock", JBool true)].

Definition priceOnly : json := JObj [("price", JNum 1500%float)].

(** Stores with a category named like a method of every object. *)
Definition constructorStore : store :=
  (seed ++ [("id", JStr uuid1) :: gadget "constructor"])%list.

Definition toStringStore : store :=
  (seed ++ [("id", JStr uuid1) :: gadget "toString";
            ("id", JStr uuid2) :: gadget "toString"])%list.

(** *** Responses *)

(** A success: 200 with a body, 201 with the created record, or 204
    without a body. *)
Definition success (r : response) : bool :=
  match Res.payload r with
  | Text _ | Matches _ | Results _ _ _ _ | Stats _ _ _ _ => Res.status r =? 200
  | Product _ => (Res.status r =? 200) || (Res.status r =? 201)
  | Empty => Res.status r =? 204
  | ErrorEnvelope _ _ _ | DefaultErrorPage _ | DefaultNotFoundPage => false
  end.

(** A failure in the envelope: the [statusCode] of the body is the status
    of the response, one of 400, 401, 404 and 500, and neither the name
    nor the message is empty. *)
Definition failure (r : response) : bool :=
  match Res.payload r with
  | ErrorEnvelope name message statusCode =>
      (statusCode =? Res.status r) &&
      existsb (Z.eqb statusCode) [400; 401; 404; 500] &&
      negb (String.eqb name EmptyString) && negb (String.eqb message EmptyString)
  | _ => false
  end.

(** An error as the handlers and the engine throw them. *)
Definition thrown (e : error) : bool :=
  negb (String.eqb (Err.name e) EmptyString) &&
  negb (String.eqb (Err.message e) EmptyString) &&
  match Err.statusCode e with
  | Some c => existsb (Z.eqb c) [400; 401; 404]
  | None => true
  end.

(** A handler that has answered or thrown, one way or the other. *)
Definition settled (o : outcome) : bool :=
  match o with
  | Next => false
  | Respond r => success r
  | Throw e => thrown e
  end.

(** Every handler of a route answers with a success or throws a known
    error, and only the write handlers touch the store. *)
Definition answers (h : handler) : Prop :=
  forall id req products,
    exists o, h id req products = (products, o) /\ settled o = true.

(** *** The field rules, spelled out *)

(** A non-empty string under [k]. *)
Definition has_text (k : string) (p : obj) : Prop :=
  exists s, Obj.get k p = Some (JStr s) /\ s <> EmptyString.

(** A number under [price] that is not [NaN], not zero and not below
    zero. *)
Definition has_price (p : obj) : Prop :=
  exists f, Obj.get "price" p = Some (JNum f) /\
            PrimFloat.is_nan f = false /\ PrimFloat.is_zero f = false /\
            PrimFloat.leb f 0%float = false.

(** A boolean under [inStock]. *)
Definition has_flag (p : obj) : Prop :=
  exists b, Obj.get "inStock" p = Some (JBool b).

(** The test of the search on a record whose name is a string. *)
Definition name_includes (q : string) (p : obj) : bool :=
  match Obj.get "name" p with
  | Some (JStr s) => Str.includes (Str.toLowerCase s) (Str.toLowerCase q)
  | _ => false
  end.

(** *** Where the string functions are those of the engine *)

(** Every character is an ASCII character.  On such strings
    [Str.toLowerCase] is [String.prototype.toLowerCase], and
    [Str.parseInt] skips exactly the white space [parseInt] skips. *)
Fixpoint ascii_only (s : string) : bool :=
  match s with
  | EmptyString => true
  | String a r => (nat_of_ascii a <? 128)%nat && ascii_only r
  end.

(** A query parameter that, when given, is written in ASCII. *)
Definition ascii_param (v : option string) : Prop :=
  forall s, v = Some s -> ascii_only s = true.

(** The string under [k], when there is one, is written in ASCII. *)
Definition ascii_field (k : string) (p : obj) : Prop :=
  forall s, Obj.get k p = Some (JStr s) -> ascii_only s = true.

(** Up to [2^53] every integer is a double, so that the integers of [Z]
    are the numbers of the engine. *)
Definition maxSafe : Z := 2 ^ 53.

(** The [total] and the [products] of a response of [GET /api/products]. *)
Definition reported_total (r : response) : option nat :=
  match Res.payload r with
  | Results total _ _ _ => Some total
  | _ => None
  end.



(** *** More requests of the examples *)

Definition delete_ (id : string) (key : option string) : request :=
  Req.mk DELETE ["api"; "products"; id] key Query.none (JObj []).

Definition search_ (q : option string) : request :=
  Req.mk GET ["api"; "products"; "search"] None
         (Query.mk None None None None q) (JObj []).

(** ** Objects *)

Module ObjFacts.
Section Props.
Context {V : Type}.
Implicit Types (o : props V) (k : string) (v : V).

Lemma get_app k o1 o2 :
  Obj.get k (o1 ++ o2)%list =
  match Obj.get k o2 with Some x => Some x | None => Obj.get k o1 end.
Proof.
  induction o1 as [|[k0 v0] r IH]; cbn.
  - now destruct (Obj.get k o2).
  - rewrite IH. now destruct (Obj.get k o2).
Qed.

Lemma get_overwrite k k' v o :
  Obj.get k (map (fun e => if String.eqb (fst e) k' then (k', v) else e) o) =
  match Obj.get k' o with
  | Some _ => if String.eqb k' k then Some v else Obj.get k o
  | None => Obj.get k o
  end.
Proof.
  induction o as [|[k0 v0] r IH]; cbn; [reflexivity|].
  rewrite IH. clear IH.
  destruct (Obj.get k' r) eqn:E';
    destruct (String.eqb_spec k0 k') as [->|Hne]; cbn;
    destruct (String.eqb_spec k' k) as [->|Hk]; cbn;
    rewrite ?E'; try reflexivity;
    destruct (Obj.get k r); try reflexivity;
    now destruct (String.eqb_spec k0 k).
Qed.

Lemma get_set k k' v o :
  Obj.get k (Obj.set k' v o) = if String.eqb k' k then Some v else Obj.get k o.
Proof.
  unfold Obj.set, Obj.has.
  destruct (Obj.get k' o) eqn:E.
  - rewrite get_overwrite, E. reflexivity.
  - rewrite get_app. cbn.
    destruct (String.eqb_spec k' k); [reflexivity|]. now destruct (Obj.get k o).
Qed.

Lemma get_spread k (src acc : props V) :
  Obj.get k (Obj.spread src acc) =
  match Obj.get k src with Some x => Some x | None => Obj.get k acc end.
Proof.
  unfold Obj.spread. revert acc.
  induction src as [|[k0 v0] r IH]; intros acc; cbn; [reflexivity|].
  rewrite IH, get_set.
  destruct (Obj.get k r); [reflexivity|]. now destruct (String.eqb k0 k).
Qed.
End Props.
End ObjFacts.

(** ** What a request can do to the store *)

Section Server.
Variable toPropertyKey : json -> option string.

Lemma findIndex_lookup {A} (f : A -> bool) l n :
  findIndex f l = Some n -> exists x, l !! n = Some x /\ f x = true.
Proof.
  revert n. induction l as [|a l IH]; intros n; cbn; [discriminate|].
  destruct (f a) eqn:E.
  - intros [= <-]. eauto.
  - destruct (findIndex f l); cbn; [|discriminate].
    intros [= <-]. cbn. eauto.
Qed.

(** *** The handlers, one by one *)

Lemma run_one h id req products : run [h] id req products = h id req products.
Proof. cbn. destruct (h id req products) as [ps' []]; reflexivity. Qed.

Lemma apiKeyMiddleware_authorized id req products :
  apiKeyMiddleware id req products =
  (products, if authorized req then Next
             else Throw (AuthError "Invalid or missing API key")).
Proof.
  unfold apiKeyMiddleware, authorized.
  destruct (Req.apiKey req) as [k|]; [|reflexivity].
  destruct (String.eqb_spec k "secret-api-key") as [->|]; cbn; [reflexivity|].
  now rewrite orb_true_r.
Qed.

Lemma run_create uuid id req products :
  run [apiKeyMiddleware; validateProductMiddleware; createProduct uuid] id req products =
  if authorized req then
    match validateProduct (Req.body req) with
    | inl e => (products, Throw e)
    | inr _ =>
        let product := newProduct uuid (Req.body req) in
        ((products ++ [product])%list, Respond (Res.mk 201 (Product product)))
    end
  else (products, Throw (AuthError "Invalid or missing API key")).
Proof.
  cbn [run]. rewrite apiKeyMiddleware_authorized.
  destruct (authorized req); [|reflexivity].
  unfold validateProductMiddleware.
  destruct (validateProduct (Req.body req)); reflexivity.
Qed.

Lemma run_update id req products :
  run [apiKeyMiddleware; validateProductMiddleware; updateProduct] id req products =
  if authorized req then
    match validateProduct (Req.body req) with
    | inl e => (products, Throw e)
    | inr _ => updateProduct id req products
    end
  else (products, Throw (AuthError "Invalid or missing API key")).
Proof.
  cbn [run]. rewrite apiKeyMiddleware_authorized.
  destruct (authorized req); [|reflexivity].
  unfold validateProductMiddleware.
  destruct (validateProduct (Req.body req)); [reflexivity|].
  destruct (updateProduct id req products) as [ps' []]; reflexivity.
Qed.

Lemma run_delete id req products :
  run [apiKeyMiddleware; deleteProduct] id req products =
  if authorized req then deleteProduct id req products
  else (products, Throw (AuthError "Invalid or missing API key")).
Proof.
  cbn [run]. rewrite apiKeyMiddleware_authorized.
  destruct (authorized req); [|reflexivity].
  destruct (deleteProduct id req products) as [ps' []]; reflexivity.
Qed.

Lemma welcome_reads : reads welcome.
Proof. intros id req ps. eexists. split; [reflexivity|discriminate]. Qed.

Lemma getProducts_reads : reads getProducts.
Proof.
  intros id req ps. unfold getProducts.
  destruct (filterProducts _ _); eexists; (split; [reflexivity|discriminate]).
Qed.

Lemma searchProducts_reads : reads searchProducts.
Proof.
  intros id req ps. unfold searchProducts.
  destruct (given _); [destruct (filter_throwing _ _)|];
    eexists; (split; [reflexivity|discriminate]).
Qed.

Lemma getStats_reads : reads (getStats toPropertyKey).
Proof.
  intros id req ps. unfold getStats.
  destruct (countCategories _ _ _); eexists; (split; [reflexivity|discriminate]).
Qed.

Lemma getProduct_reads : reads getProduct.
Proof.
  intros id req ps. unfold getProduct.
  destruct (List.find _ _); eexists; (split; [reflexivity|discriminate]).
Qed.

Lemma updateProduct_effect uuid id req products :
  validateProduct (Req.body req) = inr tt ->
  effect uuid req products (fst (updateProduct id req products)) /\
  snd (updateProduct id req products) <> Next.
Proof.
  intros Hv. unfold updateProduct.
  destruct (findIndex _ _) as [n|] eqn:E; cbn [fst snd];
    [|split; [constructor|discriminate]].
  destruct (findIndex_lookup _ _ _ E) as (x & Hx & _). rewrite Hx. cbn [default].
  split; [|discriminate]. now apply effect_update.
Qed.

Lemma deleteProduct_effect uuid id req products :
  effect uuid req products (fst (deleteProduct id req products)) /\
  snd (deleteProduct id req products) <> Next.
Proof.
  unfold deleteProduct.
  destruct (findIndex _ _); cbn; (split; [constructor|discriminate]).
Qed.

Ltac read_with L id req ps :=
  let o := fresh "o" in
  let E := fresh "E" in
  let N := fresh "N" in
  destruct (L id req ps) as (o & E & N);
  rewrite E; clear E; destruct o; [congruence| |]; cbn -[match_path run].

Ltac read_handler :=
  rewrite ?run_one;
  match goal with
  | |- context [welcome ?id ?req ?ps] => read_with welcome_reads id req ps
  | |- context [getProducts ?id ?req ?ps] => read_with getProducts_reads id req ps
  | |- context [searchProducts ?id ?req ?ps] => read_with searchProducts_reads id req ps
  | |- context [getStats _ ?id ?req ?ps] => read_with getStats_reads id req ps
  | |- context [getProduct ?id ?req ?ps] => read_with getProduct_reads id req ps
  end.

Lemma handle_effect uuid req products :
  effect uuid req products (fst (handle toPropertyKey uuid req products)).
Proof.
  unfold handle, app. cbn [dispatch bodyParser_json loggerMiddleware].
  destruct (Req.method req) eqn:Hm; cbn [method_eqb].
  all: repeat match goal with
         | |- context [match match_path ?p ?s with _ => _ end] =>
             destruct (match_path p s); cbn -[match_path run]
         end.
  all: rewrite ?run_create, ?run_update, ?run_delete.
  all: try (cbn; constructor).
  all: repeat (read_handler; try (cbn; constructor)).
  - (* POST *)
    destruct (authorized req); [|constructor].
    destruct (validateProduct (Req.body req)) as [e|[]] eqn:Hv; cbn; [constructor|].
    now apply effect_create.
  - (* PUT *)
    destruct (authorized req); [|constructor].
    destruct (validateProduct (Req.body req)) as [e|[]] eqn:Hv; cbn; [constructor|].
    destruct (updateProduct_effect uuid o req products Hv) as [He Hn].
    destruct (updateProduct o req products) as [ps' []]; cbn in *;
      [congruence|assumption|assumption].
  - (* DELETE *)
    destruct (authorized req); [|constructor].
    destruct (deleteProduct_effect uuid o req products) as [He Hn].
    destruct (deleteProduct o req products) as [ps' []]; cbn in *;
      [congruence|assumption|assumption].
Qed.

(** *** The response of each route *)

Ltac route H :=
  destruct H as [Hm Hp]; unfold handle, app;
  cbn [dispatch bodyParser_json loggerMiddleware]; rewrite Hm; cbn [method_eqb];
  unfold match_path in *; cbn [literals with_id] in *;
  destruct (strip_slash (Req.path _)) as [|s1 [|s2 [|s3 [|s4 rest]]]];
  cbn [match_segments] in *;
  repeat match type of Hp with
    | (if String.eqb ?a ?b then _ else _) = _ =>
        destruct (String.eqb_spec a b) as [->|]; [cbn in Hp|discriminate Hp]
    | (if ?c then _ else _) = _ => destruct c eqn:?; [cbn in Hp|discriminate Hp]
    end;
  try discriminate Hp; injection Hp as <-;
  cbn [String.eqb Ascii.eqb Bool.eqb andb negb].

Lemma handle_create uuid req products id :
  routed req POST (Path ["api"; "products"] false) id ->
  handle toPropertyKey uuid req products =
  if authorized req then
    match validateProduct (Req.body req) with
    | inl e => (products, errorHandler e)
    | inr _ =>
        let product := newProduct uuid (Req.body req) in
        ((products ++ [product])%list, Res.mk 201 (Product product))
    end
  else (products, errorHandler (AuthError "Invalid or missing API key")).
Proof.
  intros H. route H. rewrite run_create.
  destruct (authorized req); [|reflexivity].
  destruct (validateProduct (Req.body req)); reflexivity.
Qed.

Lemma handle_update req products uuid id :
  routed req PUT (Path ["api"; "products"] true) id ->
  handle toPropertyKey uuid req products =
  if authorized req then
    match validateProduct (Req.body req) with
    | inl e => (products, errorHandler e)
    | inr _ =>
        match findIndex (has_id (param id)) products with
        | None => (products, errorHandler (NotFoundError "Product not found"))
        | Some n =>
            let product :=
              updatedProduct (default [] (products !! n)) (Req.body req) (param id) in
            (<[n := product]> products, Res.mk 200 (Product product))
        end
    end
  else (products, errorHandler (AuthError "Invalid or missing API key")).
Proof.
  intros H. route H. rewrite run_update.
  destruct (authorized req); [|reflexivity].
  destruct (validateProduct (Req.body req)); [reflexivity|].
  unfold updateProduct. destruct (findIndex _ _); reflexivity.
Qed.

Lemma handle_delete req products uuid id :
  routed req DELETE (Path ["api"; "products"] true) id ->
  handle toPropertyKey uuid req products =
  if authorized req then
    match findIndex (has_id (param id)) products with
    | None => (products, errorHandler (NotFoundError "Product not found"))
    | Some _ =>
        (List.filter (fun p => negb (has_id (param id) p)) products, Res.mk 204 Empty)
    end
  else (products, errorHandler (AuthError "Invalid or missing API key")).
Proof.
  intros H. route H. rewrite run_delete.
  destruct (authorized req); [|reflexivity].
  unfold deleteProduct. destruct (findIndex _ _); reflexivity.
Qed.

Lemma handle_getProducts req products uuid id :
  routed req GET (Path ["api"; "products"] false) id ->
  handle toPropertyKey uuid req products =
  (products,
   match filterProducts (Req.query req) products with
   | inl e => errorHandler e
   | inr filteredProducts => Res.mk 200 (paginate (Req.query req) filteredProducts)
   end).
Proof.
  intros H. route H. rewrite run_one. unfold getProducts.
  destruct (filterProducts _ _); reflexivity.
Qed.

Lemma handle_getStats req products uuid id :
  routed req GET (Path ["api"; "products"; "stats"] false) id ->
  handle toPropertyKey uuid req products = 
  (products,
   match getStats toPropertyKey id req products with
   | (_, Respond r) => r
   | (_, Throw e) => errorHandler e
   | (_, Next) => finalhandler None
   end).
Proof.
  intros H. route H. rewrite run_one.
  destruct (getStats_reads None req products) as (o & -> & N).
  destruct o; [congruence|reflexivity|reflexivity].
Qed.

Lemma handle_getProduct req products uuid id :
  routed req GET (Path ["api"; "products"] true) (Some id) ->
  Str.toLowerCase id <> "search" -> Str.toLowerCase id <> "stats" ->
  handle toPropertyKey uuid req products =
  (products,
   match List.find (has_id id) products with
   | None => errorHandler (NotFoundError "Product not found")
   | Some product => Res.mk 200 (Product product)
   end).
Proof.
  intros H N1 N2. route H.
  repeat match goal with
    | |- context [String.eqb (Str.toLowerCase ?x) ?l] =>
        destruct (String.eqb_spec (Str.toLowerCase x) l); [congruence|]
    end.
  rewrite run_one. unfold getProduct. cbn [param default].
  destruct (List.find _ _); reflexivity.
Qed.


(** *** Validity of the stored records *)

Lemma validate_agree o o' :
  (forall k, In k checked -> Obj.get k o' = Obj.get k o) ->
  validateProduct (JObj o') = validateProduct (JObj o).
Proof.
  intros H. unfold validateProduct. cbn [member bind].
  rewrite !H by (cbn; tauto). reflexivity.
Qed.

Lemma validate_object b :
  validateProduct b = inr tt -> exists o, b = JObj o.
Proof. destruct b; try discriminate. eauto. Qed.

Lemma valid_present o k :
  valid o -> In k checked -> exists v, Obj.get k o = Some v.
Proof.
  unfold valid, validateProduct. cbn [member bind]. intros Hv Hk.
  destruct (Obj.get "name" o) eqn:E1; [|discriminate].
  destruct (Obj.get "description" o) eqn:E2;
    [|destruct (_ || _); discriminate].
  destruct (Obj.get "price" o) eqn:E3;
    [|repeat (destruct (_ || _); try discriminate)].
  destruct (Obj.get "category" o) eqn:E4;
    [|repeat (destruct (_ || _); try discriminate)].
  destruct (Obj.get "inStock" o) eqn:E5;
    [|repeat (destruct (_ || _); try discriminate)].
  cbn in Hk. intuition subst; eauto.
Qed.

Lemma valid_category o :
  valid o -> exists c, Obj.get "category" o = Some (JStr c) /\ c <> EmptyString.
Proof.
  unfold valid, validateProduct. cbn [member bind]. intros Hv.
  repeat match type of Hv with
    | (if ?c then _ else _) = _ => destruct c eqn:?; [discriminate|]
    end.
  match goal with
  | H : negb (truthy (Obj.get "category" o)) || _ = false |- _ =>
      apply orb_false_elim in H; destruct H as [Ht Hs]
  end.
  destruct (Obj.get "category" o) as [[]|]; try discriminate.
  eexists. split; [reflexivity|]. intros ->. discriminate.
Qed.

Lemma newProduct_get uuid o k :
  k <> "id" -> Obj.get k (newProduct uuid (JObj o)) = Obj.get k o.
Proof.
  intros Hk. unfold newProduct. cbn [own_props].
  rewrite ObjFacts.get_spread. destruct (Obj.get k o); [reflexivity|].
  cbn [Obj.get]. destruct (String.eqb_spec "id" k); congruence.
Qed.

Lemma newProduct_id uuid o :
  Obj.get "id" (newProduct uuid (JObj o)) =
  match Obj.get "id" o with Some v => Some v | None => Some (JStr uuid) end.
Proof. unfold newProduct. cbn [own_props]. now rewrite ObjFacts.get_spread. Qed.

Lemma updatedProduct_get existing body id k :
  k <> "id" ->
  Obj.get k (updatedProduct existing body id) =
  match Obj.get k (own_props body) with
  | Some v => Some v
  | None => Obj.get k existing
  end.
Proof.
  intros Hk. unfold updatedProduct.
  rewrite ObjFacts.get_set, !ObjFacts.get_spread.
  destruct (String.eqb_spec "id" k); [congruence|].
  destruct (Obj.get k (own_props body)); [reflexivity|].
  now destruct (Obj.get k existing).
Qed.

Lemma updatedProduct_id existing body id :
  Obj.get "id" (updatedProduct existing body id) = Some (JStr id).
Proof. unfold updatedProduct. now rewrite ObjFacts.get_set. Qed.

Lemma checked_not_id k : In k checked -> k <> "id".
Proof. cbn. intuition subst; discriminate. Qed.

Lemma newProduct_valid uuid o : valid o -> valid (newProduct uuid (JObj o)).
Proof.
  intros Hv. unfold valid. rewrite <- Hv. apply validate_agree.
  intros k Hk. apply newProduct_get. now apply checked_not_id.
Qed.

Lemma updatedProduct_valid existing o id :
  valid o -> valid (updatedProduct existing (JObj o) id).
Proof.
  intros Hv. unfold valid. rewrite <- Hv. apply validate_agree.
  intros k Hk. rewrite updatedProduct_get by now apply checked_not_id.
  cbn [own_props]. destruct (valid_present o k Hv Hk) as [v ->]. reflexivity.
Qed.

Lemma seed_valid : Forall valid seed.
Proof. repeat constructor. Qed.

Lemma effect_valid uuid req products products' :
  effect uuid req products products' -> Forall valid products -> Forall valid products'.
Proof.
  intros [| Hm Hv | id n existing Hv Hf Hl | id] Hall.
  - assumption.
  - destruct (validate_object _ Hv) as [o Ho]. rewrite Ho in *.
    apply Forall_app. split; [assumption|].
    constructor; [|constructor]. now apply newProduct_valid.
  - destruct (validate_object _ Hv) as [o Ho]. rewrite Ho in *.
    apply Forall_insert; [assumption|]. now apply updatedProduct_valid.
  - rewrite Forall_forall in *. intros x Hx.
    apply list_elem_of_In, filter_In in Hx. apply Hall, list_elem_of_In, Hx.
Qed.

(** Every record of a reachable store passes the validation checks. *)
Lemma reachable_valid products :
  reachable toPropertyKey products -> Forall valid products.
Proof.
  induction 1 as [|uuid req products _ IH]; [apply seed_valid|].
  eapply effect_valid; [apply handle_effect|assumption].
Qed.


(** *** Authentication and validation failures *)

Lemma authorized_secret req : authorized req = true <-> Req.apiKey req = secret.
Proof.
  unfold authorized, secret. destruct (Req.apiKey req) as [k|]; [|easy].
  destruct (String.eqb_spec k "secret-api-key"); split; congruence.
Qed.

Lemma validate_error b e :
  validateProduct b = inl e ->
  (b = JNull /\ Err.name e = "TypeError") \/
  (exists msg, e = ValidationError msg /\ msg <> EmptyString).
Proof.
  intros H. unfold validateProduct in H.
  destruct b; cbn [member bind] in H.
  all: repeat match type of H with
         | (if ?c then _ else _) = _ => destruct c
         end.
  all: try discriminate H.
  all: injection H as <-.
  all: first [left; split; reflexivity
             |right; eexists; split; [reflexivity|discriminate]].
Qed.

Lemma errorHandler_validation msg :
  msg <> EmptyString ->
  errorHandler (ValidationError msg) =
  Res.mk 400 (ErrorEnvelope "ValidationError" msg 400).
Proof.
  intros H. unfold errorHandler. cbn.
  destruct (String.eqb_spec msg EmptyString); [congruence|reflexivity].
Qed.


(** *** Searching, reading and answering *)

Lemma handle_searchProducts req products uuid id :
  routed req GET (Path ["api"; "products"; "search"] false) id ->
  handle toPropertyKey uuid req products =
  (products,
   match searchProducts id req products with
   | (_, Respond r) => r
   | (_, Throw e) => errorHandler e
   | (_, Next) => finalhandler None
   end).
Proof.
  intros H. route H. rewrite run_one.
  destruct (searchProducts_reads None req products) as (o & -> & N).
  destruct o; [congruence|reflexivity|reflexivity].
Qed.

(** Without the secret, and for every method that is not a write, the
    store comes back as it was. *)
Lemma handle_unchanged uuid req products :
  authorized req = false \/ Req.method req = GET \/ Req.method req = PATCH ->
  fst (handle toPropertyKey uuid req products) = products.
Proof.
  intros Hwho. unfold handle, app. cbn [dispatch bodyParser_json loggerMiddleware].
  destruct (Req.method req) eqn:Hm; cbn [method_eqb].
  all: repeat match goal with
         | |- context [match match_path ?p ?s with _ => _ end] =>
             destruct (match_path p s); cbn -[match_path run]
         end.
  all: rewrite ?run_create, ?run_update, ?run_delete.
  all: try reflexivity.
  all: repeat (read_handler; try reflexivity).
  all: destruct Hwho as [Ha|[Hg|Hg]]; try discriminate Hg; rewrite Ha; reflexivity.
Qed.

Lemma filter_throwing_error {A} (f : A -> failable bool) (l : list A) e :
  filter_throwing f l = inl e -> exists x, In x l /\ f x = inl e.
Proof.
  induction l as [|x r IH]; cbn; [discriminate|].
  destruct (f x) as [e'|b] eqn:E.
  - intros [= <-]. eauto.
  - destruct (filter_throwing f r); [|discriminate].
    intros [= <-]. destruct (IH eq_refl) as (y & Hy & Hf). eauto.
Qed.

Lemma lowered_thrown k p e : lowered k p = inl e -> thrown e = true.
Proof.
  unfold lowered. destruct (Obj.get k p) as [[]|]; try discriminate.
  all: now intros [= <-].
Qed.

Lemma validate_thrown b e : validateProduct b = inl e -> thrown e = true.
Proof.
  intros H. unfold validateProduct in H.
  destruct b; cbn [member bind] in H.
  all: repeat match type of H with
         | (if ?c then _ else _) = _ => destruct c
         end.
  all: try discriminate H.
  all: now injection H as <-.
Qed.

Lemma errorHandler_failure e : thrown e = true -> failure (errorHandler e) = true.
Proof.
  unfold thrown, failure, errorHandler. cbn [Res.payload Res.status].
  destruct e as [name message code]; cbn [Err.name Err.message Err.statusCode].
  intros [[Hn Hmsg]%andb_prop Hc]%andb_prop.
  apply negb_true_iff in Hn, Hmsg. rewrite Hn, Hmsg. cbn [negb andb].
  rewrite Z.eqb_refl, Hn, Hmsg.
  destruct code as [c|]; [|reflexivity]. cbn [existsb] in Hc.
  destruct (Z.eqb_spec c 400) as [->|]; [reflexivity|].
  destruct (Z.eqb_spec c 401) as [->|]; [reflexivity|].
  destruct (Z.eqb_spec c 404) as [->|]; [reflexivity|discriminate].
Qed.

Lemma welcome_answers : answers welcome.
Proof. intros id req ps. eexists. split; reflexivity. Qed.

Lemma getProducts_answers : answers getProducts.
Proof.
  intros id req ps. unfold getProducts.
  destruct (filterProducts _ _) as [e|l] eqn:E; eexists; (split; [reflexivity|]).
  - unfold filterProducts, filterByCategory in E.
    destruct (given (Query.category _)); [|discriminate].
    unfold byCategory in E.
    destruct (filter_throwing _ _) as [e'|] eqn:F; [|discriminate].
    injection E as <-. apply filter_throwing_error in F as (x & _ & Hx).
    destruct (lowered "category" x) eqn:L; [|discriminate].
    injection Hx as <-. cbn [settled]. now apply lowered_thrown in L.
  - reflexivity.
Qed.

Lemma searchProducts_answers : answers searchProducts.
Proof.
  intros id req ps. unfold searchProducts.
  destruct (given _); [|eexists; split; reflexivity].
  destruct (filter_throwing _ _) as [e|l] eqn:F; eexists; (split; [reflexivity|]).
  - apply filter_throwing_error in F as (x & _ & Hx).
    destruct (lowered "name" x) eqn:L; [|discriminate].
    injection Hx as <-. cbn [settled]. now apply lowered_thrown in L.
  - reflexivity.
Qed.

Lemma countCategories_thrown categories products e :
  countCategories toPropertyKey categories products = inl e -> thrown e = true.
Proof.
  revert categories. induction products as [|p r IH]; intros categories; cbn;
    [discriminate|].
  destruct (categoryKey toPropertyKey p) as [e'|k] eqn:K; cbn [bind].
  - intros [= <-]. unfold categoryKey in K.
    destruct (Obj.get "category" p) as [[| [] | | | |]|]; try discriminate;
      destruct (toPropertyKey _); try discriminate; now injection K as <-.
  - apply IH.
Qed.

Lemma getStats_answers : answers (getStats toPropertyKey).
Proof.
  intros id req ps. unfold getStats.
  destruct (countCategories _ _ _) eqn:E; eexists; (split; [reflexivity|]).
  - cbn [settled]. now apply countCategories_thrown in E.
  - reflexivity.
Qed.

Lemma getProduct_answers : answers getProduct.
Proof.
  intros id req ps. unfold getProduct.
  destruct (List.find _ _); eexists; split; reflexivity.
Qed.

Ltac answer_with L id req ps :=
  let o := fresh "o" in
  let E := fresh "E" in
  let S := fresh "S" in
  destruct (L id req ps) as (o & E & S);
  rewrite E; clear E; destruct o; cbn [settled] in S; [discriminate S| |];
  cbn -[match_path run].

Ltac answer_handler :=
  rewrite ?run_one;
  match goal with
  | |- context [welcome ?id ?req ?ps] => answer_with welcome_answers id req ps
  | |- context [getProducts ?id ?req ?ps] => answer_with getProducts_answers id req ps
  | |- context [searchProducts ?id ?req ?ps] =>
      answer_with searchProducts_answers id req ps
  | |- context [getStats _ ?id ?req ?ps] => answer_with getStats_answers id req ps
  | |- context [getProduct ?id ?req ?ps] => answer_with getProduct_answers id req ps
  end.

(** The three kinds of response. *)
Lemma handle_answer uuid req products :
  let r := snd (handle toPropertyKey uuid req products) in
  success r = true \/ failure r = true \/
  (unrouted req /\
   r = Res.mk 404 (DefaultErrorPage (NotFoundError "Endpoint not found"))).
Proof.
  unfold handle, app. cbn [dispatch bodyParser_json loggerMiddleware].
  destruct (Req.method req) eqn:Hm; cbn [method_eqb].
  all: repeat match goal with
         | |- context [match match_path ?p ?s with _ => _ end] =>
             destruct (match_path p s) eqn:?; cbn -[match_path run]
         end.
  all: rewrite ?run_create, ?run_update, ?run_delete.
  all: try (right; right; split; [|reflexivity];
            unfold unrouted, routes; repeat constructor; cbn [fst snd];
            intros Hm'; first [assumption|congruence]).
  all: repeat (answer_handler;
               [left; assumption|right; left; now apply errorHandler_failure|]).
  all: try (answer_handler;
            [left; assumption|right; left; now apply errorHandler_failure]).
  - (* POST *)
    destruct (authorized req); [|right; left; reflexivity].
    destruct (validateProduct (Req.body req)) eqn:Hv; cbn.
    + right. left. apply errorHandler_failure. now apply validate_thrown in Hv.
    + left. reflexivity.
  - (* PUT *)
    destruct (authorized req); [|right; left; reflexivity].
    destruct (validateProduct (Req.body req)) eqn:Hv; cbn.
    + right. left. apply errorHandler_failure. now apply validate_thrown in Hv.
    + unfold updateProduct. destruct (findIndex _ _); cbn;
        [left|right; left]; reflexivity.
  - (* DELETE *)
    destruct (authorized req); [|right; left; reflexivity].
    unfold deleteProduct. destruct (findIndex _ _); cbn;
      [left|right; left]; reflexivity.
Qed.

End Server.

(** ** Creating a product *)

(** C7. A [POST /api/products] whose [x-api-key] header is missing or is
    not the secret is answered with 401, and one that carries the secret
    but whose body makes the validation middleware throw a
    [ValidationError] is answered with the 400 envelope of that error; in
    both cases, and whatever the middleware throws, the store is the one
    the request found. *)
Theorem create_rejected_store_unchanged
  (toPropertyKey : json -> option string) uuid req products id :
  routed req POST (Path ["api"; "products"] false) id ->
  (Req.apiKey req <> secret ->
   handle toPropertyKey uuid req products =
   (products,
    Res.mk 401 (ErrorEnvelope "AuthError" "Invalid or missing API key" 401)))
  /\
  (Req.apiKey req = secret ->
   (forall msg, validateProduct (Req.body req) = inl (ValidationError msg) ->
      handle toPropertyKey uuid req products =
      (products, Res.mk 400 (ErrorEnvelope "ValidationError" msg 400))) /\
   (forall e, validateProduct (Req.body req) = inl e ->
      fst (handle toPropertyKey uuid req products) = products)).
Proof.
  intros Hr. rewrite (handle_create toPropertyKey uuid req products id Hr).
  split.
  - intros Hk. destruct (authorized req) eqn:Ha; [|reflexivity].
    apply authorized_secret in Ha. contradiction.
  - intros Hk. apply authorized_secret in Hk. rewrite Hk. split.
    + intros msg He. rewrite He.
      destruct (validate_error _ _ He) as [[_ Hty]|(msg' & Hm & Hne)].
      * discriminate Hty.
      * injection Hm as <-. now rewrite errorHandler_validation.
    + intros e He. now rewrite He.
Qed.

Lemma create_rejected_store_unchanged_witness :
  routed (post_ None underpriced) POST (Path ["api"; "products"] false) None /\
  routed (post_ secret underpriced) POST (Path ["api"; "products"] false) None /\
  handle throwingKeys uuid1 (post_ None underpriced) seed =
  (seed, Res.mk 401 (ErrorEnvelope "AuthError" "Invalid or missing API key" 401)) /\
  handle throwingKeys uuid1 (post_ secret underpriced) seed =
  (seed,
   Res.mk 400
     (ErrorEnvelope "ValidationError"
        "Product price is required and must be a positive number" 400)).
Proof.
  assert (R1 : routed (post_ None underpriced) POST (Path ["api"; "products"] false) None)
    by (split; reflexivity).
  assert (R2 : routed (post_ secret underpriced) POST (Path ["api"; "products"] false) None)
    by (split; reflexivity).
  refine (conj R1 (conj R2 (conj _ _))).
  - apply (create_rejected_store_unchanged throwingKeys uuid1 _ seed None R1).
    discriminate.
  - destruct (create_rejected_store_unchanged throwingKeys uuid1 _ seed None R2)
      as [_ H].
    exact (proj1 (H eq_refl) _ eq_refl).
Defined.

(** The price of -5 is what the middleware objects to. *)
Example underpriced_rejected :
  handle throwingKeys uuid1 (post_ secret underpriced) seed =
  (seed,
   Res.mk 400
     (ErrorEnvelope "ValidationError"
        "Product price is required and must be a positive number" 400)).
Proof. reflexivity. Qed.

(** C1. The record that [POST /api/products] stores takes its [id] from
    the payload when the payload has one: with a body whose [id] is ["1"]
    the stored and returned record has [id] ["1"], not the generated
    identifier, and fetching by the returned [id] yields the laptop. *)
Theorem create_takes_id_from_payload :
  let created := ("id", JStr "1") :: gadget "tools" in
  handle throwingKeys uuid1 (post_ secret withId1) seed =
  ((seed ++ [created])%list, Res.mk 201 (Product created)) /\
  Obj.get "id" created = Some (JStr "1") /\
  Obj.get "id" created <> Some (JStr uuid1) /\
  handle throwingKeys uuid1 (get_ ["api"; "products"; "1"] Query.none)
         (seed ++ [created])%list =
  ((seed ++ [created])%list, Res.mk 200 (Product laptop)).
Proof. cbv zeta. repeat split; try reflexivity. discriminate. Qed.

(** Whenever an accepted payload has an [id] of its own, that is the [id]
    of the stored record. *)
Lemma payload_id_wins
  (toPropertyKey : json -> option string) uuid req products o v :
  routed req POST (Path ["api"; "products"] false) None ->
  Req.apiKey req = secret ->
  Req.body req = JObj o ->
  valid o ->
  Obj.get "id" o = Some v ->
  let created := newProduct uuid (JObj o) in
  handle toPropertyKey uuid req products =
  ((products ++ [created])%list, Res.mk 201 (Product created)) /\
  Obj.get "id" created = Some v.
Proof.
  intros Hr Hk Hb Hv Hid created. split.
  - rewrite (handle_create toPropertyKey uuid req products None Hr).
    apply authorized_secret in Hk. rewrite Hk, Hb.
    unfold valid in Hv. now rewrite Hv.
  - subst created. now rewrite newProduct_id, Hid.
Qed.

Lemma find_app_fresh (f : obj -> bool) (l : list obj) (x : obj) :
  Forall (fun p => f p = false) l -> f x = true ->
  List.find f (l ++ [x])%list = Some x.
Proof.
  intros Hl Hx. induction Hl as [|p l Hp _ IH]; cbn.
  - now rewrite Hx.
  - now rewrite Hp.
Qed.

Lemma has_id_ids id (products : store) :
  Some (JStr id) ∉ ids products -> Forall (fun p => has_id id p = false) products.
Proof.
  unfold ids. intros Hn. apply Forall_forall. intros p Hp.
  unfold has_id. destruct (Obj.get "id" p) as [[]|] eqn:E; try reflexivity.
  destruct (String.eqb_spec s id) as [->|]; [|reflexivity].
  exfalso. apply Hn. rewrite <- E. now apply list_elem_of_fmap_2.
Qed.

(** X17. When the payload has no [id] of its own and the generated
    identifier is not the [id] of a stored record, the round trip is as
    expected: the created record carries the generated [id], agrees with
    the payload on every other property, and is what a fetch by that [id]
    returns. *)
Lemma create_get_roundtrip
  (toPropertyKey : json -> option string) uuid uuid' req fetch products o :
  routed req POST (Path ["api"; "products"] false) None ->
  Req.apiKey req = secret ->
  Req.body req = JObj o ->
  valid o ->
  Obj.get "id" o = None ->
  Some (JStr uuid) ∉ ids products ->
  routed fetch GET (Path ["api"; "products"] true) (Some uuid) ->
  Str.toLowerCase uuid <> "search" -> Str.toLowerCase uuid <> "stats" ->
  let created := newProduct uuid (JObj o) in
  handle toPropertyKey uuid req products =
  ((products ++ [created])%list, Res.mk 201 (Product created)) /\
  Obj.get "id" created = Some (JStr uuid) /\
  (forall k, k <> "id" -> Obj.get k created = Obj.get k o) /\
  handle toPropertyKey uuid' fetch (products ++ [created])%list =
  ((products ++ [created])%list, Res.mk 200 (Product created)).
Proof.
  intros Hr Hk Hb Hv Hid Hfresh Hf N1 N2 created.
  assert (Hc : Obj.get "id" created = Some (JStr uuid))
    by (subst created; now rewrite newProduct_id, Hid).
  repeat split.
  - rewrite (handle_create toPropertyKey uuid req products None Hr).
    apply authorized_secret in Hk. rewrite Hk, Hb.
    unfold valid in Hv. now rewrite Hv.
  - exact Hc.
  - intros k Hne. now apply newProduct_get.
  - rewrite (handle_getProduct toPropertyKey fetch _ uuid' uuid Hf N1 N2).
    rewrite find_app_fresh; [reflexivity|now apply has_id_ids|].
    unfold has_id. rewrite Hc. apply String.eqb_refl.
Qed.

(** ** Updating a product *)

(** C3, as the code has it.  [PUT /api/products/:id] with the secret, a
    body that itself passes the validation middleware and an [id] that a
    stored record has: the first such record is replaced, in place, by the
    merge of the record and the body with [id] set to the path's, the
    response is 200 with that record, the record takes every property
    but [id] from the body where the body has it and from the old record
    otherwise, and it passes the validation checks. *)
Theorem update_merges_validated_body
  (toPropertyKey : json -> option string) uuid req products id n existing :
  routed req PUT (Path ["api"; "products"] true) (Some id) ->
  Req.apiKey req = secret ->
  validateProduct (Req.body req) = inr tt ->
  findIndex (has_id id) products = Some n ->
  products !! n = Some existing ->
  let updated := updatedProduct existing (Req.body req) id in
  handle toPropertyKey uuid req products =
  (<[n := updated]> products, Res.mk 200 (Product updated)) /\
  Obj.get "id" updated = Some (JStr id) /\
  (forall k, k <> "id" ->
     Obj.get k updated =
     match Obj.get k (own_props (Req.body req)) with
     | Some v => Some v
     | None => Obj.get k existing
     end) /\
  valid updated.
Proof.
  intros Hr Hk Hv Hf Hl updated. repeat split.
  - rewrite (handle_update toPropertyKey req products uuid (Some id) Hr).
    apply authorized_secret in Hk. rewrite Hk, Hv.
    change (param (Some id)) with id. rewrite Hf, Hl. reflexivity.
  - apply updatedProduct_id.
  - intros k Hne. now apply updatedProduct_get.
  - destruct (validate_object _ Hv) as [o Ho]. subst updated. rewrite Ho in *.
    now apply updatedProduct_valid.
Qed.

Lemma update_merges_validated_body_witness :
  let req := put_ "1" secret (JObj (("id", JStr "7") :: gadget "tools")) in
  routed req PUT (Path ["api"; "products"] true) (Some "1") /\
  Req.apiKey req = secret /\
  validateProduct (Req.body req) = inr tt /\
  findIndex (has_id "1") seed = Some 0%nat /\
  seed !! 0%nat = Some laptop /\
  handle throwingKeys uuid1 req seed =
  ([("id", JStr "1") :: gadget "tools"; smartphone; coffeeMaker],
   Res.mk 200 (Product (("id", JStr "1") :: gadget "tools"))).
Proof.
  cbv zeta.
  assert (R : routed (put_ "1" secret (JObj (("id", JStr "7") :: gadget "tools")))
                PUT (Path ["api"; "products"] true) (Some "1"))
    by (split; reflexivity).
  refine (conj R (conj eq_refl (conj eq_refl (conj eq_refl (conj eq_refl _))))).
  exact (proj1 (update_merges_validated_body throwingKeys uuid1 _ seed "1" 0%nat
                  laptop R eq_refl eq_refl eq_refl eq_refl)).
Defined.

(** C3, as stated, fails: a body with only a price, which merged with the
    laptop gives a record that passes every check, is rejected with 400
    because the middleware checks the body alone. *)
Lemma update_partial_body_rejected :
  routed (put_ "1" secret priceOnly) PUT (Path ["api"; "products"] true) (Some "1") /\
  authorized (put_ "1" secret priceOnly) = true /\
  findIndex (has_id "1") seed = Some 0%nat /\
  valid (updatedProduct laptop priceOnly "1") /\
  handle throwingKeys uuid1 (put_ "1" secret priceOnly) seed =
  (seed,
   Res.mk 400
     (ErrorEnvelope "ValidationError"
        "Product name is required and must be a string" 400)) /\
  Res.status (snd (handle throwingKeys uuid1 (put_ "1" secret priceOnly) seed)) <> 200.
Proof. repeat split; try reflexivity. discriminate. Qed.

(** ** Uniqueness of identifiers *)

Lemma has_id_get id p : has_id id p = true -> Obj.get "id" p = Some (JStr id).
Proof.
  unfold has_id. destruct (Obj.get "id" p) as [[]|]; try discriminate.
  now intros ->%String.eqb_eq.
Qed.

Lemma ids_filter (g : obj -> bool) (products : store) :
  NoDup (ids products) -> NoDup (ids (List.filter g products)).
Proof.
  unfold ids. induction products as [|p r IH]; cbn; [trivial|].
  rewrite NoDup_cons. intros [Hp Hr]. destruct (g p); cbn; [|auto].
  rewrite NoDup_cons. split; [|auto].
  intros Hin. apply Hp.
  apply list_elem_of_fmap in Hin as (q & -> & Hq).
  apply list_elem_of_fmap_2. apply list_elem_of_In in Hq.
  apply list_elem_of_In. now apply filter_In in Hq.
Qed.

(** X16. A request keeps the identifiers distinct as long as the
    generated identifier is new to the store and a create payload brings
    no [id] of its own. *)
Lemma unique_ids_step (toPropertyKey : json -> option string) uuid req products :
  NoDup (ids products) ->
  Some (JStr uuid) ∉ ids products ->
  (Req.method req = POST -> Obj.get "id" (own_props (Req.body req)) = None) ->
  NoDup (ids (fst (handle toPropertyKey uuid req products))).
Proof.
  intros Hnd Hfresh Hbody.
  destruct (handle_effect toPropertyKey uuid req products)
    as [| Hm Hv | id n existing Hv Hf Hl | id].
  - assumption.
  - destruct (validate_object _ Hv) as [o Ho]. specialize (Hbody Hm).
    rewrite Ho in *. cbn [own_props] in Hbody.
    unfold ids in *. rewrite fmap_app. cbn [fmap list_fmap].
    rewrite newProduct_id, Hbody.
    apply NoDup_app. split; [assumption|]. split; [|apply NoDup_singleton].
    intros x Hx ->%list_elem_of_singleton. contradiction.
  - destruct (findIndex_lookup _ _ _ Hf) as (x & Hx & Hid).
    assert (x = existing) as -> by congruence.
    apply has_id_get in Hid.
    unfold ids in *. rewrite list_fmap_insert, updatedProduct_id, <- Hid.
    rewrite list_insert_id; [assumption|].
    now rewrite list_lookup_fmap, Hl.
  - now apply ids_filter.
Qed.

(** C4. A store with two records of the same [id] is reachable: the seed,
    then one authenticated create whose payload carries the [id] of the
    laptop. *)
Theorem duplicate_id_reachable :
  let created := ("id", JStr "1") :: gadget "tools" in
  reachable throwingKeys (seed ++ [created])%list /\
  ~ NoDup (ids (seed ++ [created])%list).
Proof.
  cbv zeta. split.
  - exact (reachable_step throwingKeys uuid1 (post_ secret withId1) seed
             (reachable_seed throwingKeys)).
  - cbn. rewrite NoDup_cons. intros [H _]. apply H.
    do 2 right. left.
Qed.

(** ** Requests that match no route *)

(** C2. A request that matches no route is answered by Express's final
    handler, not by the error middleware: the 404 handler is registered
    after the error middleware, so the error it throws finds no error
    middleware further down the stack.  The status is 404, the body is the
    default error page and not the JSON envelope. *)
Theorem unmatched_route_default_page
  (toPropertyKey : json -> option string) uuid products :
  handle toPropertyKey uuid (get_ ["nope"] Query.none) products =
  (products, Res.mk 404 (DefaultErrorPage (NotFoundError "Endpoint not found"))) /\
  forall name message statusCode,
    Res.payload (snd (handle toPropertyKey uuid (get_ ["nope"] Query.none) products))
    <> ErrorEnvelope name message statusCode.
Proof.
  assert (H : handle toPropertyKey uuid (get_ ["nope"] Query.none) products =
              (products,
               Res.mk 404 (DefaultErrorPage (NotFoundError "Endpoint not found"))))
    by reflexivity.
  split; [exact H|]. intros name message statusCode. rewrite H. discriminate.
Qed.

(** Every request outside the route table gets that page. *)
Lemma unrouted_default_page (toPropertyKey : json -> option string) uuid req products :
  unrouted req ->
  handle toPropertyKey uuid req products =
  (products, Res.mk 404 (DefaultErrorPage (NotFoundError "Endpoint not found"))).
Proof.
  unfold unrouted, routes. rewrite !Forall_cons. cbn [fst snd].
  intros (H1 & H2 & H3 & H4 & H5 & H6 & H7 & H8 & _).
  unfold handle, app. cbn [dispatch bodyParser_json loggerMiddleware].
  destruct (Req.method req); cbn [method_eqb];
    rewrite ?H1, ?H2, ?H3, ?H4, ?H5, ?H6, ?H7, ?H8 by reflexivity; reflexivity.
Qed.

(** An error thrown inside a route does reach the error middleware, and
    what that writes always has the shape of the envelope. *)
Lemma errorHandler_envelope e :
  exists name message statusCode,
    errorHandler e = Res.mk statusCode (ErrorEnvelope name message statusCode).
Proof. unfold errorHandler. eauto. Qed.

(** ** Pagination *)

Lemma window_take_drop {A} (l : list A) (lo hi : Z) (off : nat) :
  0 <= lo ->
  omap (fun '(i, x) =>
          if (lo <=? Z.of_nat i) && (Z.of_nat i <? hi) then Some x else None)
       (imap (fun i x => ((off + i)%nat, x)) l) =
  take (Z.to_nat (hi - Z.max lo (Z.of_nat off))) (drop (Z.to_nat (lo - Z.of_nat off)) l).
Proof.
  intros Hlo. revert off. induction l as [|x r IH]; intros off.
  - now rewrite drop_nil, take_nil.
  - rewrite imap_cons. cbn [omap list_omap].
    rewrite (imap_ext _ (fun i y => ((S off + i)%nat, y)))
      by (intros; cbn; f_equal; lia).
    rewrite IH. replace (off + 0)%nat with off by lia.
    destruct (Z.leb_spec lo (Z.of_nat off)); cbn [andb].
    + replace (Z.to_nat (lo - Z.of_nat off)) with 0%nat by lia.
      replace (Z.to_nat (lo - Z.of_nat (S off))) with 0%nat by lia.
      rewrite !drop_0.
      replace (Z.max lo (Z.of_nat off)) with (Z.of_nat off) by lia.
      replace (Z.max lo (Z.of_nat (S off))) with (Z.of_nat (S off)) by lia.
      destruct (Z.ltb_spec (Z.of_nat off) hi).
      * replace (Z.to_nat (hi - Z.of_nat off))
          with (S (Z.to_nat (hi - Z.of_nat (S off)))) by lia.
        reflexivity.
      * replace (Z.to_nat (hi - Z.of_nat off)) with 0%nat by lia.
        replace (Z.to_nat (hi - Z.of_nat (S off))) with 0%nat by lia.
        reflexivity.
    + replace (Z.to_nat (lo - Z.of_nat off))
        with (S (Z.to_nat (lo - Z.of_nat (S off)))) by lia.
      replace (Z.max lo (Z.of_nat off)) with lo by lia.
      replace (Z.max lo (Z.of_nat (S off))) with lo by lia.
      reflexivity.
Qed.

Lemma spec_page_take_drop {A} (l : list A) (P L : Z) :
  0 <= (P - 1) * L ->
  spec_page l P L =
  take (Z.to_nat (Z.min (P * L) (Z.of_nat (length l)) - (P - 1) * L))
       (drop (Z.to_nat ((P - 1) * L)) l).
Proof.
  intros H. unfold spec_page.
  rewrite (imap_ext pair (fun i x => ((0 + i)%nat, x)) l) by reflexivity.
  rewrite window_take_drop by assumption.
  rewrite Z.max_l by lia. now rewrite Z.sub_0_r.
Qed.

(** For a page and a limit of at least 1, [slice] returns the page of the
    specification. *)
Lemma slice_spec_page {A} (l : list A) (P L : Z) :
  1 <= P -> 1 <= L -> slice l ((P - 1) * L) (P * L) = spec_page l P L.
Proof.
  intros HP HL. rewrite spec_page_take_drop by nia. unfold slice.
  set (N := Z.of_nat (length l)). set (a := (P - 1) * L). set (b := P * L).
  assert (0 <= a) by (subst a; nia). assert (a <= b) by (subst a b; nia).
  destruct (Z.ltb_spec a 0); [lia|]. destruct (Z.ltb_spec b 0); [lia|].
  destruct (Z.le_gt_cases N a).
  - rewrite Z.min_r by lia.
    rewrite !(drop_ge l) by (subst N; lia). now rewrite !take_nil.
  - rewrite (Z.min_l a N) by lia. reflexivity.
Qed.





(** ** Filters *)

Lemma is_bool_spec b v : is_bool b v = true <-> v = Some (JBool b).
Proof.
  unfold is_bool. destruct v as [[]|]; try (split; [discriminate|congruence]).
  rewrite Bool.eqb_true_iff. split; congruence.
Qed.

Lemma given_nonempty s : s <> EmptyString -> given (Some s) = Some s.
Proof. intros H. cbn. now destruct (String.eqb_spec s EmptyString). Qed.

(** C6, as the code has it.  A stock parameter that is absent or empty
    applies no filtering.  A supplied value that is not empty keeps, in
    store order, exactly the records whose [inStock] is the boolean it
    parses to: [true] for the string [true] in any mix of cases, [false]
    for anything else. *)
Theorem stock_filter_keeps_parsed_value (products : list obj) (inStock : option string) :
  (inStock = None \/ inStock = Some EmptyString ->
   filterByStock inStock products = products) /\
  (forall s, inStock = Some s -> s <> EmptyString ->
     let wanted := String.eqb (Str.toLowerCase s) "true" in
     filterByStock inStock products = spec_stock s products /\
     sublist (filterByStock inStock products) products /\
     forall p, p ∈ filterByStock inStock products <->
               p ∈ products /\ Obj.get "inStock" p = Some (JBool wanted)).
Proof.
  split.
  - intros [->| ->]; reflexivity.
  - intros s -> Hs wanted. unfold filterByStock. rewrite given_nonempty by assumption.
    unfold byStock, spec_stock. fold wanted. split; [reflexivity|]. split.
    + induction products as [|p r IH]; cbn; [constructor|].
      destruct (is_bool _ _); now constructor.
    + intros p. rewrite !list_elem_of_In, filter_In, is_bool_spec. reflexivity.
Qed.

Lemma stock_filter_keeps_parsed_value_witness :
  ((None : option string) = None \/ None = Some EmptyString) /\
  Some "TRUE" = Some "TRUE" /\ "TRUE" <> EmptyString /\
  filterByStock None seed = seed /\
  filterByStock (Some "TRUE") seed = [laptop; smartphone] /\
  filterByStock (Some "yes") seed = [coffeeMaker].
Proof.
  refine (conj (or_introl eq_refl) (conj eq_refl (conj _ (conj _ (conj _ _))))).
  - discriminate.
  - exact (proj1 (stock_filter_keeps_parsed_value seed None) (or_introl eq_refl)).
  - refine (proj1 (proj2 (stock_filter_keeps_parsed_value seed (Some "TRUE"))
                     "TRUE" eq_refl _)). discriminate.
  - refine (proj1 (proj2 (stock_filter_keeps_parsed_value seed (Some "yes"))
                     "yes" eq_refl _)). discriminate.
Defined.

(** With no category parameter, the response of [GET /api/products] is
    the page of what the stock filter keeps. *)
Lemma getProducts_stock_only
  (toPropertyKey : json -> option string) uuid req products id :
  routed req GET (Path ["api"; "products"] false) id ->
  given (Query.category (Req.query req)) = None ->
  handle toPropertyKey uuid req products =
  (products,
   Res.mk 200
     (paginate (Req.query req)
        (filterByStock (Query.inStock (Req.query req)) products))).
Proof.
  intros Hr Hc. rewrite (handle_getProducts toPropertyKey req products uuid id Hr).
  unfold filterProducts, filterByCategory. now rewrite Hc.
Qed.

(** C6, as stated, fails for the empty string: [?inStock=] supplies the
    value, the guard [if (req.query.inStock)] takes it for absent, and all
    three seed records are returned where parsing it to [false] would keep
    the coffee maker alone. *)
Lemma stock_empty_string_not_filtered :
  handle throwingKeys uuid1 (get_ ["api"; "products"] (stockQuery EmptyString)) seed =
  (seed, Res.mk 200 (Results 3 1 10 seed)) /\
  filterByStock (Some EmptyString) seed = seed /\
  spec_stock EmptyString seed = [coffeeMaker] /\
  filterByStock (Some EmptyString) seed <> spec_stock EmptyString seed.
Proof. repeat split; try reflexivity. discriminate. Qed.

(** On records that pass validation the category filter never throws: it
    is the plain filter by [category_matches]. *)
Lemma byCategory_valid category (products : list obj) :
  Forall valid products ->
  byCategory category products = inr (List.filter (category_matches category) products).
Proof.
  unfold byCategory. induction 1 as [|p r Hp _ IH]; cbn [filter_throwing List.filter].
  - reflexivity.
  - destruct (valid_category p Hp) as (c & Hc & _).
    rewrite IH. unfold lowered, category_matches. rewrite Hc. reflexivity.
Qed.

Lemma filter_swap {A} (f g : A -> bool) (l : list A) :
  List.filter f (List.filter g l) = List.filter g (List.filter f l).
Proof.
  induction l as [|x r IH]; cbn; [reflexivity|].
  destruct (f x) eqn:Ef, (g x) eqn:Eg; cbn; rewrite ?Ef, ?Eg, IH; reflexivity.
Qed.

Lemma filter_valid (g : obj -> bool) (products : list obj) :
  Forall valid products -> Forall valid (List.filter g products).
Proof.
  rewrite !Forall_forall. intros H x Hx%list_elem_of_In%filter_In.
  apply H, list_elem_of_In, Hx.
Qed.

Lemma toLowerCase_empty s : Str.toLowerCase s = EmptyString <-> s = EmptyString.
Proof. destruct s; cbn; split; congruence. Qed.

(** C8. In every reachable store, for every supplied category and stock
    parameter, the two filters give the same records in either order (the
    handler's order is category first), and two category parameters that
    differ only in case select the same records, as [Electronics] and
    [electronics] do. *)
Theorem filters_commute_and_ignore_case
  (toPropertyKey : json -> option string) (products : store)
  (category inStock : option string) :
  reachable toPropertyKey products ->
  (forall page limit q,
     filterProducts (Query.mk category inStock page limit q) products =
     filterByCategory category (filterByStock inStock products)) /\
  (let* filtered := filterByCategory category products in
   inr (filterByStock inStock filtered)) =
  filterByCategory category (filterByStock inStock products) /\
  (forall c1 c2, Str.toLowerCase c1 = Str.toLowerCase c2 ->
     filterByCategory (Some c1) products = filterByCategory (Some c2) products) /\
  filterByCategory (Some "Electronics") products =
  filterByCategory (Some "electronics") products.
Proof.
  intros Hreach. apply reachable_valid in Hreach.
  assert (Hswap :
    (let* filtered := filterByCategory category products in
     inr (filterByStock inStock filtered)) =
    filterByCategory category (filterByStock inStock products)).
  { unfold filterByCategory, filterByStock.
    destruct (given category) as [c|], (given inStock) as [s|]; cbn [bind];
      try reflexivity.
    - rewrite !byCategory_valid by (try apply filter_valid; assumption).
      cbn [bind]. unfold byStock. now rewrite filter_swap.
    - rewrite byCategory_valid by assumption. reflexivity. }
  assert (Hcase : forall c1 c2, Str.toLowerCase c1 = Str.toLowerCase c2 ->
            filterByCategory (Some c1) products = filterByCategory (Some c2) products).
  { intros c1 c2 Heq. unfold filterByCategory, given.
    destruct (String.eqb_spec c1 EmptyString) as [->|N1],
             (String.eqb_spec c2 EmptyString) as [->|N2]; try reflexivity.
    - cbn in Heq. symmetry in Heq.
      apply (proj1 (toLowerCase_empty c2)) in Heq. contradiction.
    - cbn in Heq. apply (proj1 (toLowerCase_empty c1)) in Heq. contradiction.
    - rewrite !byCategory_valid by assumption. unfold category_matches.
      now rewrite Heq. }
  split; [intros page limit q; exact Hswap|].
  split; [exact Hswap|]. split; [exact Hcase|].
  now apply Hcase.
Qed.

Lemma filters_commute_and_ignore_case_witness :
  reachable throwingKeys seed /\
  filterProducts (Query.mk (Some "Electronics") (Some "true") None None None) seed =
  filterByCategory (Some "Electronics") (filterByStock (Some "true") seed) /\
  filterByCategory (Some "Electronics") seed = filterByCategory (Some "electronics") seed.
Proof.
  pose proof (filters_commute_and_ignore_case throwingKeys seed
                (Some "Electronics") (Some "true") (reachable_seed throwingKeys))
    as (H1 & _ & _ & H4).
  exact (conj (reachable_seed throwingKeys) (conj (H1 None None None) H4)).
Defined.

(** The scenario of the specification: the category filter on the seed. *)
Example electronics_of_seed :
  handle throwingKeys uuid1
         (get_ ["api"; "products"] (Query.mk (Some "Electronics") None None None None))
         seed =
  (seed, Res.mk 200 (Results 2 1 10 [laptop; smartphone])).
Proof. reflexivity. Qed.

(** ** Statistics *)

(** C9. With a stored record whose category is [constructor], a name
    that every object literal inherits from [Object.prototype], the
    categories object of [GET /api/products/stats] does not map the
    category to its record count: the guard [!stats.categories[...]] sees
    the inherited function, the counter is never set to 0, and [++] makes
    it [NaN].  The store is reachable by one create. *)
Theorem stats_miscounts_inherited_name :
  reachable throwingKeys constructorStore /\
  categoryCount "constructor" constructorStore = 1%nat /\
  handle throwingKeys uuid1 (get_ ["api"; "products"; "stats"] Query.none)
         constructorStore =
  (constructorStore,
   Res.mk 200
     (Stats 4 3 1 [("electronics", Num 2); ("kitchen", Num 1); ("constructor", NaN)])).
Proof.
  split; [|split; reflexivity].
  exact (reachable_step throwingKeys uuid1 (post_ secret (JObj (gadget "constructor")))
           seed (reachable_seed throwingKeys)).
Qed.

(** C10. With two stored records of category [toString], another
    inherited name, the counters of the categories object add up to 4 for
    a store of 5 records: the first of the two records turns the counter
    into [NaN], the second resets it and counts itself alone.  The stock
    counters do add up to the total.  The store is reachable by two
    creates. *)
Theorem stats_categories_sum_short :
  reachable throwingKeys toStringStore /\
  length toStringStore = 5%nat /\
  exists categories,
    handle throwingKeys uuid1 (get_ ["api"; "products"; "stats"] Query.none)
           toStringStore =
    (toStringStore, Res.mk 200 (Stats 5 4 1 categories)) /\
    categories = [("electronics", Num 2); ("kitchen", Num 1); ("toString", Num 1)] /\
    sumCounts categories = Num 4.
Proof.
  split; [|split; [reflexivity|]].
  - exact (reachable_step throwingKeys uuid2
             (post_ secret (JObj (gadget "toString"))) _
             (reachable_step throwingKeys uuid1
                (post_ secret (JObj (gadget "toString"))) seed
                (reachable_seed throwingKeys))).
  - eexists. split; [reflexivity|]. split; reflexivity.
Qed.

(** The two stock counters always add up to the number of records. *)
Lemma stock_counters_partition {A} (f : A -> bool) (l : list A) :
  (length (List.filter f l) + length (List.filter (fun x => negb (f x)) l))%nat =
  length l.
Proof.
  induction l as [|x r IH]; cbn; [reflexivity|].
  destruct (f x); cbn; lia.
Qed.

(** *** The categories loop when no name is inherited *)

Lemma get_None_keys {V} k (o : props V) : Obj.get k o = None <-> k ∉ map fst o.
Proof.
  induction o as [|[k0 v0] r IH]; cbn.
  - split; [intros _; apply not_elem_of_nil|reflexivity].
  - rewrite not_elem_of_cons, <- IH.
    destruct (Obj.get k r); [split; [discriminate|intros [_ ?]; discriminate]|].
    destruct (String.eqb_spec k0 k); split; try congruence; intuition congruence.
Qed.

Lemma get_Some_elem {V} k v (o : props V) : Obj.get k o = Some v -> (k, v) ∈ o.
Proof.
  induction o as [|[k0 v0] r IH]; cbn; [discriminate|].
  destruct (Obj.get k r).
  - intros [= <-]. right. now apply IH.
  - destruct (String.eqb_spec k0 k) as [->|]; [|discriminate].
    intros [= <-]. left.
Qed.

Lemma overwrite_absent {V} k (v : V) (o : props V) :
  k ∉ map fst o -> map (fun e => if String.eqb (fst e) k then (k, v) else e) o = o.
Proof.
  induction o as [|[k0 v0] r IH]; cbn; [reflexivity|].
  rewrite not_elem_of_cons. intros [Hne Hr]. rewrite IH by assumption.
  destruct (String.eqb_spec k0 k); congruence.
Qed.

Lemma overwrite_keys {V} k (v : V) (o : props V) :
  map fst (map (fun e => if String.eqb (fst e) k then (k, v) else e) o) = map fst o.
Proof.
  induction o as [|[k0 v0] r IH]; cbn; [reflexivity|].
  rewrite IH. now destruct (String.eqb_spec k0 k) as [->|].
Qed.

Lemma set_fresh {V} k (v : V) (o : props V) :
  Obj.get k o = None -> Obj.set k v o = (o ++ [(k, v)])%list.
Proof. intros H. unfold Obj.set, Obj.has. now rewrite H. Qed.

Lemma set_last {V} k (v v' : V) (o : props V) :
  k ∉ map fst o -> Obj.set k v' (o ++ [(k, v)])%list = (o ++ [(k, v')])%list.
Proof.
  intros H. unfold Obj.set, Obj.has. rewrite ObjFacts.get_app. cbn [Obj.get].
  rewrite String.eqb_refl, map_app, overwrite_absent by assumption.
  cbn [map fst]. now rewrite String.eqb_refl.
Qed.

Lemma sumZ_app (a b : props count) : sumZ (a ++ b)%list = sumZ a + sumZ b.
Proof. induction a as [|e a IH]; cbn; [reflexivity|]. rewrite IH. lia. Qed.

Lemma sumZ_overwrite k n (o : props count) :
  NoDup (map fst o) -> Obj.get k o = Some (Num n) ->
  sumZ (map (fun e => if String.eqb (fst e) k then (k, Num (n + 1)) else e) o) =
  sumZ o + 1.
Proof.
  induction o as [|[k0 v0] r IH]; cbn; [discriminate|].
  rewrite NoDup_cons. intros [Hk0 Hr] Hget.
  destruct (String.eqb_spec k0 k) as [->|Hne]; cbn.
  - apply get_None_keys in Hk0 as Hnone. rewrite Hnone in Hget.
    injection Hget as ->. rewrite overwrite_absent by assumption. lia.
  - destruct (Obj.get k r) eqn:E; [|discriminate].
    injection Hget as ->. rewrite IH by auto. lia.
Qed.

Lemma sumCounts_sumZ (o : props count) :
  Forall (fun e => exists n, snd e = Num n /\ 0 < n) o -> sumCounts o = Num (sumZ o).
Proof.
  induction 1 as [|[k v] r (n & Hn & _) _ IH]; cbn in *; [reflexivity|].
  now rewrite IH, Hn.
Qed.

Lemma inherited_proto k : inherited k = false -> String.eqb k "__proto__" = false.
Proof.
  intros H. destruct (String.eqb_spec k "__proto__") as [->|]; [|reflexivity].
  discriminate H.
Qed.

(** One round of the loop adds one to the counter of the category and
    leaves the others alone. *)
Lemma countCategory_plain (categories : props count) k :
  counts_ok categories -> inherited k = false ->
  counts_ok (countCategory categories k) /\
  (forall c, counter (countCategory categories k) c =
             counter categories c + (if String.eqb k c then 1 else 0)) /\
  sumZ (countCategory categories k) = sumZ categories + 1.
Proof.
  intros [Hnd Hpos] Hk. pose proof (inherited_proto k Hk) as Hp.
  unfold countCategory, read, assign. rewrite Hp, Hk.
  destruct (Obj.get k categories) as [v|] eqn:Hget.
  - (* the category has a counter *)
    pose proof (get_Some_elem _ _ _ Hget) as Hin.
    rewrite Forall_forall in Hpos. destruct (Hpos _ Hin) as (n & Hv & Hn).
    cbn in Hv. subst v. cbn [slot_falsy].
    destruct (Z.eqb_spec n 0); [lia|]. rewrite Hget. cbn [incremented].
    unfold Obj.set, Obj.has. rewrite Hget. repeat split.
    + now rewrite overwrite_keys.
    + apply Forall_forall. intros e He.
      apply list_elem_of_fmap in He as (e' & -> & He').
      destruct (String.eqb (fst e') k); [cbn; exists (n + 1); split; [reflexivity|lia]|].
      now apply Hpos.
    + intros c. unfold counter. rewrite ObjFacts.get_overwrite, Hget.
      destruct (String.eqb_spec k c) as [<-|]; [rewrite Hget|]; [lia|].
      destruct (Obj.get c categories) as [[]|]; lia.
    + now apply sumZ_overwrite.
  - (* the category is new *)
    cbn [slot_falsy]. rewrite ObjFacts.get_set, String.eqb_refl. cbn [incremented].
    apply get_None_keys in Hget as Hfresh.
    rewrite (set_fresh k (Num 0)), set_last by assumption. repeat split.
    + rewrite map_app. apply NoDup_app. split; [assumption|].
      split; [|apply NoDup_singleton].
      intros x Hx ->%list_elem_of_singleton. contradiction.
    + apply Forall_app. split; [assumption|]. constructor; [|constructor].
      exists 1. split; [reflexivity|lia].
    + intros c. unfold counter. rewrite ObjFacts.get_app. cbn [Obj.get].
      destruct (String.eqb_spec k c) as [<-|]; [rewrite Hget; lia|].
      destruct (Obj.get c categories) as [[]|]; lia.
    + rewrite sumZ_app. cbn. lia.
Qed.

Lemma in_category_valid p :
  valid p ->
  exists k, Obj.get "category" p = Some (JStr k) /\
            forall c, in_category c p = String.eqb k c.
Proof.
  intros Hv. destruct (valid_category p Hv) as (k & Hk & _).
  exists k. split; [assumption|]. intros c. unfold in_category. now rewrite Hk.
Qed.

(** The whole loop: it cannot throw, and it counts every record once
    under its category. *)
Lemma countCategories_plain (toPropertyKey : json -> option string)
  (products : store) (categories : props count) :
  Forall valid products -> plain_categories products -> counts_ok categories ->
  exists categories',
    countCategories toPropertyKey categories products = inr categories' /\
    counts_ok categories' /\
    (forall c, counter categories' c =
               counter categories c + Z.of_nat (categoryCount c products)) /\
    sumZ categories' = sumZ categories + Z.of_nat (length products).
Proof.
  intros Hv. revert categories.
  induction Hv as [|p r Hp _ IH]; intros categories Hplain Hok.
  - exists categories. split; [reflexivity|]. split; [assumption|]. split.
    + intros c. unfold categoryCount. cbn [List.filter length]. lia.
    + cbn [length]. lia.
  - apply Forall_cons in Hplain as [Hpk Hplain].
    destruct (in_category_valid p Hp) as (k & Hk & Hin).
    assert (Hinh : inherited k = false)
      by (apply Hpk; rewrite Hin; apply String.eqb_refl).
    destruct (countCategory_plain categories k Hok Hinh) as (Hok1 & Hc1 & Hs1).
    destruct (IH _ Hplain Hok1) as (cats' & Hrun & Hok' & Hc' & Hs').
    exists cats'. cbn [countCategories]. unfold categoryKey. rewrite Hk. cbn [bind].
    split; [exact Hrun|]. split; [assumption|]. split.
    + intros c. rewrite Hc', Hc1. unfold categoryCount. cbn [List.filter].
      rewrite Hin. destruct (String.eqb k c); cbn [length]; lia.
    + rewrite Hs', Hs1. cbn [length]. lia.
Qed.

Lemma counts_ok_get (categories : props count) c :
  counts_ok categories ->
  Obj.get c categories =
  if counter categories c =? 0 then None else Some (Num (counter categories c)).
Proof.
  intros [_ Hpos]. unfold counter.
  destruct (Obj.get c categories) as [v|] eqn:E; [|reflexivity].
  apply get_Some_elem in E. rewrite Forall_forall in Hpos.
  destruct (Hpos _ E) as (n & Hv & Hn). cbn in Hv. subst v.
  destruct (Z.eqb_spec n 0); [lia|reflexivity].
Qed.

Lemma valid_inStock p :
  valid p -> exists b, Obj.get "inStock" p = Some (JBool b).
Proof.
  unfold valid, validateProduct. cbn [member bind]. intros Hv.
  repeat match type of Hv with
    | (if ?c then _ else _) = _ => destruct c eqn:?; [discriminate|]
    end.
  destruct (Obj.get "inStock" p) as [[]|]; try discriminate. eauto.
Qed.

Lemma filter_ext_valid (f g : obj -> bool) (products : store) :
  Forall valid products -> (forall p, valid p -> f p = g p) ->
  List.filter f products = List.filter g products.
Proof.
  intros Hv Hfg. induction Hv as [|p r Hp _ IH]; cbn; [reflexivity|].
  now rewrite (Hfg p Hp), IH.
Qed.

(** X18. For a reachable store in which no category is an inherited name,
    the statistics are the ones of the specification: the number of records,
    the numbers of records in and out of stock, and for every category
    string, compared exactly, the number of its records; the counters of
    the categories add up to the number of records. *)
Lemma stats_of_plain_store (toPropertyKey : json -> option string) uuid req id
  (products : store) :
  routed req GET (Path ["api"; "products"; "stats"] false) id ->
  reachable toPropertyKey products -> plain_categories products ->
  exists categories,
    handle toPropertyKey uuid req products =
    (products,
     Res.mk 200
       (Stats (length products)
          (length (List.filter (fun p => is_bool true (Obj.get "inStock" p)) products))
          (length (List.filter (fun p => is_bool false (Obj.get "inStock" p)) products))
          categories)) /\
    (forall c,
       Obj.get c categories =
       if (categoryCount c products =? 0)%nat then None
       else Some (Num (Z.of_nat (categoryCount c products)))) /\
    sumCounts categories = Num (Z.of_nat (length products)).
Proof.
  intros Hr Hreach Hplain. apply reachable_valid in Hreach as Hv.
  assert (Hempty : counts_ok ([] : props count))
    by (split; [apply NoDup_nil_2|constructor]).
  destruct (countCategories_plain toPropertyKey products [] Hv Hplain Hempty)
    as (cats & Hrun & Hok & Hc & Hs).
  exists cats. repeat split.
  - rewrite (handle_getStats toPropertyKey req products uuid id Hr).
    unfold getStats. rewrite Hrun. unfold ok. do 3 f_equal.
    + f_equal. apply filter_ext_valid; [assumption|].
      intros p Hp. destruct (valid_inStock p Hp) as [b ->]. now destruct b.
    + f_equal. apply filter_ext_valid; [assumption|].
      intros p Hp. destruct (valid_inStock p Hp) as [b ->]. now destruct b.
  - intros c. rewrite (counts_ok_get cats c Hok), Hc. unfold counter. cbn [Obj.get].
    rewrite Z.add_0_l.
    destruct (categoryCount c products); [reflexivity|].
    destruct (Z.eqb_spec (Z.of_nat (S n)) 0); [lia|reflexivity].
  - rewrite sumCounts_sumZ by apply Hok. rewrite Hs. reflexivity.
Qed.

(** The scenario of the specification: the statistics of the seed. *)
Example stats_of_seed :
  handle throwingKeys uuid1 (get_ ["api"; "products"; "stats"] Query.none) seed =
  (seed, Res.mk 200 (Stats 3 2 1 [("electronics", Num 2); ("kitchen", Num 1)])).
Proof. reflexivity. Qed.

(** The name of a category is kept as it is written: two spellings that
    the category filter takes for the same get a counter each. *)
Example stats_keeps_case :
  let products := [("id", JStr "a") :: gadget "Tools"; ("id", JStr "b") :: gadget "tools"] in
  snd (handle throwingKeys uuid1 (get_ ["api"; "products"; "stats"] Query.none) products) =
  Res.mk 200 (Stats 2 2 0 [("Tools", Num 1); ("tools", Num 1)]) /\
  filterByCategory (Some "TOOLS") products = inr products.
Proof. split; reflexivity. Qed.

(** ** Deleting a product *)

Lemma findIndex_None {A} (f : A -> bool) (l : list A) :
  findIndex f l = None <-> Forall (fun x => f x = false) l.
Proof.
  induction l as [|x r IH]; cbn.
  - split; [constructor|reflexivity].
  - rewrite Forall_cons, <- IH. destruct (f x).
    + split; [discriminate|intros [? _]; discriminate].
    + destruct (findIndex f r); cbn; split; try discriminate; intuition discriminate.
Qed.

Lemma findIndex_Some {A} (f : A -> bool) (l : list A) :
  (exists x, x ∈ l /\ f x = true) -> exists n, findIndex f l = Some n.
Proof.
  intros (x & Hx & Hf). destruct (findIndex f l) eqn:E; [eauto|].
  apply findIndex_None in E. rewrite Forall_forall in E.
  rewrite (E x Hx) in Hf. discriminate.
Qed.

Lemma findIndex_first {A} (f : A -> bool) (l : list A) n :
  findIndex f l = Some n ->
  forall i x, (i < n)%nat -> l !! i = Some x -> f x = false.
Proof.
  revert n. induction l as [|a r IH]; intros n; cbn; [discriminate|].
  destruct (f a) eqn:E.
  - intros [= <-] i x Hi. lia.
  - destruct (findIndex f r) as [m|]; cbn; [|discriminate].
    intros [= <-] [|i] x Hi; cbn.
    + now intros [= <-].
    + apply (IH m eq_refl). lia.
Qed.

Lemma filter_sublist {A} (g : A -> bool) (l : list A) : sublist (List.filter g l) l.
Proof.
  induction l as [|x r IH]; cbn; [constructor|].
  destruct (g x); now constructor.
Qed.

Lemma filter_elem_of {A} (g : A -> bool) (l : list A) x :
  x ∈ List.filter g l <-> x ∈ l /\ g x = true.
Proof. now rewrite !list_elem_of_In, filter_In. Qed.

Lemma filter_shorter {A} (g : A -> bool) (l : list A) x :
  x ∈ l -> g x = false -> (length (List.filter g l) < length l)%nat.
Proof.
  induction l as [|a r IH]; [intros H; inversion H|].
  intros [->|Hin]%elem_of_cons Hg; cbn.
  - rewrite Hg. pose proof (sublist_length _ _ (filter_sublist g r)). lia.
  - specialize (IH Hin Hg). destruct (g a); cbn; lia.
Qed.

(** X1. [DELETE /api/products/:id] with the secret and an [id] that some
    record has answers 204 without a body and removes every record of
    that [id], and nothing else: the new store is the old one filtered
    by [p.id !== id], so the records of another [id] stay, each as often
    as before and in their order, and the store is shorter. *)
Theorem delete_removes_record
  (toPropertyKey : json -> option string) uuid req (products : store) id :
  routed req DELETE (Path ["api"; "products"] true) (Some id) ->
  Req.apiKey req = secret ->
  (exists p, p ∈ products /\ has_id id p = true) ->
  let products' := fst (handle toPropertyKey uuid req products) in
  snd (handle toPropertyKey uuid req products) = Res.mk 204 Empty /\
  products' = List.filter (fun p => negb (has_id id p)) products /\
  sublist products' products /\
  (forall p, p ∈ products' <-> p ∈ products /\ has_id id p = false) /\
  (length products' < length products)%nat.
Proof.
  intros Hr Hk Hex.
  rewrite (handle_delete toPropertyKey req products uuid (Some id) Hr).
  apply authorized_secret in Hk. rewrite Hk. change (param (Some id)) with id.
  destruct (findIndex_Some _ _ Hex) as [n ->]. cbn [fst snd].
  split; [reflexivity|]. split; [reflexivity|].
  split; [apply filter_sublist|]. split.
  - intros p. rewrite filter_elem_of, negb_true_iff. reflexivity.
  - destruct Hex as (p & Hp & Hid). apply (filter_shorter _ _ p Hp).
    now rewrite Hid.
Qed.

Lemma delete_removes_record_witness :
  routed (delete_ "2" secret) DELETE (Path ["api"; "products"] true) (Some "2") /\
  Req.apiKey (delete_ "2" secret) = secret /\
  (exists p, p ∈ seed /\ has_id "2" p = true) /\
  handle throwingKeys uuid1 (delete_ "2" secret) seed =
  ([laptop; coffeeMaker], Res.mk 204 Empty).
Proof.
  assert (R : routed (delete_ "2" secret) DELETE (Path ["api"; "products"] true)
                (Some "2")) by (split; reflexivity).
  assert (E : exists p, p ∈ seed /\ has_id "2" p = true).
  { exists smartphone. split; [|reflexivity]. right. left. }
  refine (conj R (conj eq_refl (conj E _))).
  pose proof (delete_removes_record throwingKeys uuid1 _ seed "2" R eq_refl E)
    as [H _].
  apply injective_projections; [reflexivity|exact H].
Defined.

(** X2. [DELETE /api/products/:id] with the secret and an [id] that no
    record has answers 404 in the envelope and leaves the store; so does
    the same delete when it is repeated, whatever the first one did. *)
Theorem delete_absent_not_found
  (toPropertyKey : json -> option string) uuid uuid' req (products : store) id :
  routed req DELETE (Path ["api"; "products"] true) (Some id) ->
  Req.apiKey req = secret ->
  (Forall (fun p => has_id id p = false) products ->
   handle toPropertyKey uuid req products =
   (products, Res.mk 404 (ErrorEnvelope "NotFoundError" "Product not found" 404))) /\
  handle toPropertyKey uuid' req (fst (handle toPropertyKey uuid req products)) =
  (fst (handle toPropertyKey uuid req products),
   Res.mk 404 (ErrorEnvelope "NotFoundError" "Product not found" 404)).
Proof.
  intros Hr Hk. apply authorized_secret in Hk.
  assert (Habsent : forall u (ps : store),
            Forall (fun p => has_id id p = false) ps ->
            handle toPropertyKey u req ps =
            (ps, Res.mk 404 (ErrorEnvelope "NotFoundError" "Product not found" 404))).
  { intros u ps Hno. rewrite (handle_delete toPropertyKey req ps u (Some id) Hr), Hk.
    change (param (Some id)) with id.
    apply findIndex_None in Hno. now rewrite Hno. }
  split; [apply Habsent|]. apply Habsent.
  rewrite (handle_delete toPropertyKey req products uuid (Some id) Hr), Hk.
  change (param (Some id)) with id.
  destruct (findIndex (has_id id) products) eqn:E; cbn [fst].
  - apply Forall_forall. intros p [_ Hp]%filter_elem_of.
    now apply negb_true_iff in Hp.
  - now apply findIndex_None.
Qed.

Lemma delete_absent_not_found_witness :
  routed (delete_ "2" secret) DELETE (Path ["api"; "products"] true) (Some "2") /\
  Req.apiKey (delete_ "2" secret) = secret /\
  handle throwingKeys uuid2 (delete_ "2" secret)
         (fst (handle throwingKeys uuid1 (delete_ "2" secret) seed)) =
  ([laptop; coffeeMaker],
   Res.mk 404 (ErrorEnvelope "NotFoundError" "Product not found" 404)).
Proof.
  assert (R : routed (delete_ "2" secret) DELETE (Path ["api"; "products"] true)
                (Some "2")) by (split; reflexivity).
  refine (conj R (conj eq_refl _)).
  exact (proj2 (delete_absent_not_found throwingKeys uuid1 uuid2 _ seed "2"
                  R eq_refl)).
Defined.

(** ** Writes without the secret, and the order of the rejections *)

(** X3. [PUT] and [DELETE /api/products/:id] without the secret answer
    401 in the envelope and leave the store, whatever the body and
    whether or not a record has the [id]: the key is checked first. *)
Theorem writes_need_key
  (toPropertyKey : json -> option string) uuid req (products : store) id :
  routed req PUT (Path ["api"; "products"] true) id \/
  routed req DELETE (Path ["api"; "products"] true) id ->
  Req.apiKey req <> secret ->
  handle toPropertyKey uuid req products =
  (products, Res.mk 401 (ErrorEnvelope "AuthError" "Invalid or missing API key" 401)).
Proof.
  intros Hr Hk.
  assert (Ha : authorized req = false).
  { destruct (authorized req) eqn:E; [|reflexivity].
    apply authorized_secret in E. contradiction. }
  destruct Hr as [Hr|Hr].
  - rewrite (handle_update toPropertyKey req products uuid id Hr), Ha. reflexivity.
  - rewrite (handle_delete toPropertyKey req products uuid id Hr), Ha. reflexivity.
Qed.

Lemma writes_need_key_witness :
  (routed (put_ "9" None priceOnly) PUT (Path ["api"; "products"] true) (Some "9") \/
   routed (put_ "9" None priceOnly) DELETE (Path ["api"; "products"] true) (Some "9")) /\
  Req.apiKey (put_ "9" None priceOnly) <> secret /\
  handle throwingKeys uuid1 (put_ "9" None priceOnly) seed =
  (seed, Res.mk 401 (ErrorEnvelope "AuthError" "Invalid or missing API key" 401)).
Proof.
  assert (R : routed (put_ "9" None priceOnly) PUT (Path ["api"; "products"] true)
                (Some "9")) by (split; reflexivity).
  assert (K : Req.apiKey (put_ "9" None priceOnly) <> secret) by discriminate.
  refine (conj (or_introl R) (conj K _)).
  exact (writes_need_key throwingKeys uuid1 _ seed (Some "9") (or_introl R) K).
Defined.

(** X4. [PUT /api/products/:id] with the secret: a body that the
    validation middleware rejects answers 400 whether or not a record has
    the [id], and a body that passes with an [id] that no record has
    answers 404; the store is left in both cases. *)
Theorem update_rejections
  (toPropertyKey : json -> option string) uuid req (products : store) id :
  routed req PUT (Path ["api"; "products"] true) (Some id) ->
  Req.apiKey req = secret ->
  (forall msg, validateProduct (Req.body req) = inl (ValidationError msg) ->
     handle toPropertyKey uuid req products =
     (products, Res.mk 400 (ErrorEnvelope "ValidationError" msg 400))) /\
  (validateProduct (Req.body req) = inr tt ->
   Forall (fun p => has_id id p = false) products ->
   handle toPropertyKey uuid req products =
   (products, Res.mk 404 (ErrorEnvelope "NotFoundError" "Product not found" 404))).
Proof.
  intros Hr Hk. apply authorized_secret in Hk.
  rewrite (handle_update toPropertyKey req products uuid (Some id) Hr), Hk. split.
  - intros msg He. rewrite He.
    destruct (validate_error _ _ He) as [[_ Hty]|(msg' & Hm & Hne)].
    + discriminate Hty.
    + injection Hm as <-. now rewrite errorHandler_validation.
  - intros Hv Hno. rewrite Hv. change (param (Some id)) with id.
    apply findIndex_None in Hno. now rewrite Hno.
Qed.

Lemma update_rejections_witness :
  routed (put_ "9" secret underpriced) PUT (Path ["api"; "products"] true) (Some "9") /\
  Req.apiKey (put_ "9" secret underpriced) = secret /\
  handle throwingKeys uuid1 (put_ "9" secret underpriced) seed =
  (seed,
   Res.mk 400
     (ErrorEnvelope "ValidationError"
        "Product price is required and must be a positive number" 400)) /\
  handle throwingKeys uuid1 (put_ "9" secret (JObj (gadget "tools"))) seed =
  (seed, Res.mk 404 (ErrorEnvelope "NotFoundError" "Product not found" 404)).
Proof.
  assert (R : routed (put_ "9" secret underpriced) PUT (Path ["api"; "products"] true)
                (Some "9")) by (split; reflexivity).
  assert (R' : routed (put_ "9" secret (JObj (gadget "tools"))) PUT
                 (Path ["api"; "products"] true) (Some "9")) by (split; reflexivity).
  refine (conj R (conj eq_refl (conj _ _))).
  - exact (proj1 (update_rejections throwingKeys uuid1 _ seed "9" R eq_refl)
             _ eq_refl).
  - refine (proj2 (update_rejections throwingKeys uuid1 _ seed "9" R' eq_refl)
              eq_refl _).
    repeat constructor.
Defined.

(** ** What an update leaves alone *)

(** X5. A successful [PUT /api/products/:id] changes one place of the
    store only, that of the first record with the [id]: the store keeps
    its length, every [id] stays where it was, even when the body carries
    another [id], and the records at the other places are untouched. *)
Theorem update_keeps_ids_and_places
  (toPropertyKey : json -> option string) uuid req (products : store) id n :
  routed req PUT (Path ["api"; "products"] true) (Some id) ->
  Req.apiKey req = secret ->
  validateProduct (Req.body req) = inr tt ->
  findIndex (has_id id) products = Some n ->
  let products' := fst (handle toPropertyKey uuid req products) in
  length products' = length products /\
  ids products' = ids products /\
  (forall i, i <> n -> products' !! i = products !! i) /\
  (forall i p, (i < n)%nat -> products !! i = Some p -> has_id id p = false).
Proof.
  intros Hr Hk Hv Hf.
  rewrite (handle_update toPropertyKey req products uuid (Some id) Hr).
  apply authorized_secret in Hk. rewrite Hk, Hv. change (param (Some id)) with id.
  rewrite Hf. cbn [fst].
  destruct (findIndex_lookup _ _ _ Hf) as (x & Hx & Hid). apply has_id_get in Hid.
  split; [apply length_insert|]. split; [|split].
  - unfold ids. rewrite list_fmap_insert, updatedProduct_id, <- Hid.
    apply list_insert_id. now rewrite list_lookup_fmap, Hx.
  - intros i Hi. now apply list_lookup_insert_ne.
  - now apply findIndex_first.
Qed.

Lemma update_keeps_ids_and_places_witness :
  let req := put_ "2" secret (JObj (("id", JStr "7") :: gadget "tools")) in
  routed req PUT (Path ["api"; "products"] true) (Some "2") /\
  Req.apiKey req = secret /\
  validateProduct (Req.body req) = inr tt /\
  findIndex (has_id "2") seed = Some 1%nat /\
  ids (fst (handle throwingKeys uuid1 req seed)) =
  [Some (JStr "1"); Some (JStr "2"); Some (JStr "3")].
Proof.
  cbv zeta.
  assert (R : routed (put_ "2" secret (JObj (("id", JStr "7") :: gadget "tools")))
                PUT (Path ["api"; "products"] true) (Some "2"))
    by (split; reflexivity).
  refine (conj R (conj eq_refl (conj eq_refl (conj eq_refl _)))).
  exact (proj1 (proj2 (update_keeps_ids_and_places throwingKeys uuid1 _ seed "2"
                         1%nat R eq_refl eq_refl eq_refl))).
Defined.

(** ** Reading one product *)

Lemma find_first {A} (f : A -> bool) (l : list A) x :
  List.find f l = Some x ->
  exists n, l !! n = Some x /\ f x = true /\
            forall i y, (i < n)%nat -> l !! i = Some y -> f y = false.
Proof.
  induction l as [|a r IH]; cbn; [discriminate|].
  destruct (f a) eqn:E.
  - intros [= <-]. exists 0%nat. repeat split; [assumption|]. intros; lia.
  - intros H. destruct (IH H) as (n & Hn & Hf & Hfirst).
    exists (S n). repeat split; try assumption.
    intros [|i] y Hi; cbn; [now intros [= <-]|]. apply Hfirst. lia.
Qed.

Lemma find_absent {A} (f : A -> bool) (l : list A) :
  List.find f l = None -> Forall (fun x => f x = false) l.
Proof.
  intros H. apply Forall_forall. intros x Hx%list_elem_of_In.
  now apply (find_none f l H).
Qed.

(** X6. [GET /api/products/:id], for an [id] that is not one of the
    literal segments [search] and [stats]: when no record has the [id] the
    answer is 404 in the envelope, otherwise it is 200 with the first
    record of that [id] in store order; the store is left as it was. *)
Theorem get_returns_first_with_id
  (toPropertyKey : json -> option string) uuid req (products : store) id :
  routed req GET (Path ["api"; "products"] true) (Some id) ->
  Str.toLowerCase id <> "search" -> Str.toLowerCase id <> "stats" ->
  (Forall (fun p => has_id id p = false) products /\
   handle toPropertyKey uuid req products =
   (products, Res.mk 404 (ErrorEnvelope "NotFoundError" "Product not found" 404)))
  \/
  (exists n p,
     products !! n = Some p /\ has_id id p = true /\
     (forall i q, (i < n)%nat -> products !! i = Some q -> has_id id q = false) /\
     handle toPropertyKey uuid req products = (products, Res.mk 200 (Product p))).
Proof.
  intros Hr N1 N2.
  rewrite (handle_getProduct toPropertyKey req products uuid id Hr N1 N2).
  destruct (List.find (has_id id) products) as [p|] eqn:E.
  - right. destruct (find_first _ _ _ E) as (n & Hn & Hid & Hfirst).
    exists n, p. auto.
  - left. split; [now apply find_absent|reflexivity].
Qed.

Lemma get_returns_first_with_id_witness :
  let req := get_ ["api"; "products"; "3"] Query.none in
  routed req GET (Path ["api"; "products"] true) (Some "3") /\
  Str.toLowerCase "3" <> "search" /\ Str.toLowerCase "3" <> "stats" /\
  exists n p,
    seed !! n = Some p /\ has_id "3" p = true /\
    handle throwingKeys uuid1 req seed = (seed, Res.mk 200 (Product p)).
Proof.
  cbv zeta.
  assert (R : routed (get_ ["api"; "products"; "3"] Query.none) GET
                (Path ["api"; "products"] true) (Some "3")) by (split; reflexivity).
  assert (N1 : Str.toLowerCase "3" <> "search") by discriminate.
  assert (N2 : Str.toLowerCase "3" <> "stats") by discriminate.
  refine (conj R (conj N1 (conj N2 _))).
  destruct (get_returns_first_with_id throwingKeys uuid1 _ seed "3" R N1 N2)
    as [[Hno _]|(n & p & Hn & Hid & _ & H)].
  - exfalso. apply Forall_cons in Hno as [_ Hno].
    apply Forall_cons in Hno as [_ Hno]. apply Forall_cons in Hno as [Hno _].
    discriminate Hno.
  - exists n, p. auto.
Defined.

(** ** Searching by name *)

Lemma append_cons a s t : String a s ++ t = String a (s ++ t).
Proof. reflexivity. Qed.

Lemma append_nil t : EmptyString ++ t = t.
Proof. reflexivity. Qed.

Lemma prefix_spec t s : String.prefix t s = true <-> exists post, s = t ++ post.
Proof.
  revert s. induction t as [|a t IH]; intros s.
  - destruct s; cbn; (split; [eauto|reflexivity]).
  - destruct s as [|b s]; cbn; [split; [discriminate|intros [? [=]]]|].
    destruct (ascii_dec a b) as [->|Hne].
    + rewrite IH. split; intros [post H]; exists post;
        rewrite append_cons in *; congruence.
    + split; [discriminate|]. intros [post H]. rewrite append_cons in H. congruence.
Qed.

Lemma includes_spec s t :
  Str.includes s t = true <-> exists pre post, s = pre ++ t ++ post.
Proof.
  split.
  - induction s as [|a s IH]; cbn [Str.includes]; rewrite orb_true_iff.
    + intros [H|H]; [|discriminate]. apply prefix_spec in H as [post ->].
      now exists EmptyString, post.
    + intros [H|H].
      * apply prefix_spec in H as [post ->]. now exists EmptyString, post.
      * destruct (IH H) as (pre & post & ->). now exists (String a pre), post.
  - intros (pre & post & ->). induction pre as [|a pre IH].
    + rewrite append_nil. destruct (t ++ post) eqn:E; cbn [Str.includes];
        rewrite orb_true_iff; left; apply prefix_spec; eauto.
    + rewrite append_cons. cbn [Str.includes]. rewrite IH. apply orb_true_r.
Qed.

Lemma filter_throwing_total {A} (f : A -> failable bool) (g : A -> bool) (l : list A) :
  Forall (fun x => f x = inr (g x)) l -> filter_throwing f l = inr (List.filter g l).
Proof.
  induction 1 as [|x r Hx _ IH]; cbn; [reflexivity|]. now rewrite Hx, IH.
Qed.

Lemma valid_fields p :
  valid p <->
  has_text "name" p /\ has_text "description" p /\ has_price p /\
  has_text "category" p /\ has_flag p.
Proof.
  unfold valid, validateProduct, has_text, has_price, has_flag.
  cbn [member bind]. split.
  - intros Hv.
    repeat match type of Hv with
      | (if ?c then _ else _) = _ => destruct c eqn:?; [discriminate|]
      end.
    repeat match goal with
      | H : _ || _ = false |- _ => apply orb_false_elim in H as [? ?]
      end.
    repeat match goal with
      | H : negb _ = false |- _ => apply negb_false_iff in H
      end.
    destruct (Obj.get "name" p) as [[]|]; try discriminate.
    destruct (Obj.get "description" p) as [[]|]; try discriminate.
    destruct (Obj.get "price" p) as [[]|]; try discriminate.
    destruct (Obj.get "category" p) as [[]|]; try discriminate.
    destruct (Obj.get "inStock" p) as [[]|]; try discriminate.
    cbn [truthy le_zero] in *.
    repeat match goal with
      | H : negb (String.eqb _ _) = true |- _ =>
          apply negb_true_iff, String.eqb_neq in H
      | H : negb (_ || _) = true |- _ =>
          apply negb_true_iff, orb_false_elim in H as [? ?]
      end.
    repeat split; eauto 8.
  - intros ((n & -> & Hn) & (d & -> & Hd) & (f & -> & Hnan & Hzero & Hle) &
            (c & -> & Hc) & (b & ->)).
    cbn [truthy typeof jstype_eqb le_zero negb orb].
    apply String.eqb_neq in Hn, Hd, Hc. now rewrite Hn, Hd, Hc, Hnan, Hzero, Hle.
Qed.

(** X8. [GET /api/products/search] on a reachable store: without [q], or
    with an empty one, the answer is 400 in the envelope.  With a [q]
    given once, as a string, and with [q] and the stored names written in
    ASCII, the answer is 200 with the store filtered by the test of the
    handler, so each matching record as often as it is stored, in store
    order and without pagination; the test holds of the records whose
    name contains [q] as a substring when both are put in lower case.
    The store is left as it was. *)
Theorem search_returns_name_matches
  (toPropertyKey : json -> option string) uuid req (products : store) id :
  routed req GET (Path ["api"; "products"; "search"] false) id ->
  reachable toPropertyKey products ->
  (Query.q (Req.query req) = None \/ Query.q (Req.query req) = Some EmptyString ->
   handle toPropertyKey uuid req products =
   (products,
    Res.mk 400
      (ErrorEnvelope "ValidationError"
         ("Search query parameter " ++ dquote ++ "q" ++ dquote ++ " is required")
         400))) /\
  (forall q, Query.q (Req.query req) = Some q -> q <> EmptyString ->
     ascii_only q = true -> Forall (ascii_field "name") products ->
     handle toPropertyKey uuid req products =
     (products, Res.mk 200 (Matches (List.filter (name_includes q) products))) /\
     (forall p, name_includes q p = true <->
        exists name pre post,
          Obj.get "name" p = Some (JStr name) /\
          Str.toLowerCase name = pre ++ Str.toLowerCase q ++ post) /\
     (forall p, p ∈ List.filter (name_includes q) products <->
        p ∈ products /\ name_includes q p = true)).
Proof.
  intros Hr Hreach. apply reachable_valid in Hreach.
  rewrite (handle_searchProducts toPropertyKey req products uuid id Hr).
  unfold searchProducts. split.
  - intros [-> | ->]; reflexivity.
  - intros q -> Hq _ _. rewrite given_nonempty by assumption.
    rewrite (filter_throwing_total _ (name_includes q)).
    + split; [reflexivity|]. split.
      * intros p. unfold name_includes. split.
        -- intros H.
           destruct (Obj.get "name" p) as [[| | |name| |]|]; try discriminate.
           apply includes_spec in H as (pre & post & H). eauto.
        -- intros (name & pre & post & -> & H). apply includes_spec. eauto.
      * intros p. apply filter_elem_of.
    + eapply Forall_impl; [exact Hreach|]. intros p Hp. cbn beta in *.
      apply valid_fields in Hp as ((name & Hname & _) & _).
      unfold lowered, name_includes. now rewrite Hname.
Qed.

Lemma search_returns_name_matches_witness :
  routed (search_ (Some "LAP")) GET (Path ["api"; "products"; "search"] false) None /\
  reachable throwingKeys seed /\
  Query.q (Req.query (search_ (Some "LAP"))) = Some "LAP" /\ "LAP" <> EmptyString /\
  ascii_only "LAP" = true /\ Forall (ascii_field "name") seed /\
  handle throwingKeys uuid1 (search_ (Some "LAP")) seed =
  (seed, Res.mk 200 (Matches [laptop])).
Proof.
  assert (R : routed (search_ (Some "LAP")) GET
                (Path ["api"; "products"; "search"] false) None)
    by (split; reflexivity).
  assert (N : "LAP" <> EmptyString) by discriminate.
  assert (A : Forall (ascii_field "name") seed).
  { repeat constructor; intros s H; vm_compute in H; injection H as <-;
      reflexivity. }
  refine (conj R (conj (reachable_seed _) (conj eq_refl (conj N
            (conj eq_refl (conj A _)))))).
  exact (proj1 (proj2 (search_returns_name_matches throwingKeys uuid1 _ seed None R
                         (reachable_seed _)) "LAP" eq_refl N eq_refl A)).
Defined.

(** ** Filtering by category *)

(** X9. [GET /api/products] with a category given once, as a string that
    is not empty, on a reachable store, the category and the stored
    categories written in ASCII: the category filter gives the store
    filtered by the test of the handler, so each matching record as often
    as it is stored and in store order; the test holds of the records
    whose category is the requested one when both are put in lower case.
    Without a stock parameter the response reports the number of these
    records as [total], and, for a page and a limit in the range of C5,
    lists the page of these records. *)
Theorem category_filter_keeps_matching
  (toPropertyKey : json -> option string) uuid req (products : store) id c :
  routed req GET (Path ["api"; "products"] false) id ->
  reachable toPropertyKey products ->
  Query.category (Req.query req) = Some c -> c <> EmptyString ->
  ascii_only c = true -> Forall (ascii_field "category") products ->
  let kept := List.filter (category_matches c) products in
  let P := intOr 1 (Query.page (Req.query req)) in
  let L := intOr 10 (Query.limit (Req.query req)) in
  filterByCategory (Some c) products = inr kept /\
  (forall p, category_matches c p = true <->
     exists s, Obj.get "category" p = Some (JStr s) /\
               Str.toLowerCase s = Str.toLowerCase c) /\
  (forall p, p ∈ kept <-> p ∈ products /\ category_matches c p = true) /\
  (given (Query.inStock (Req.query req)) = None ->
   fst (handle toPropertyKey uuid req products) = products /\
   reported_total (snd (handle toPropertyKey uuid req products)) =
     Some (length kept) /\
   (ascii_param (Query.page (Req.query req)) ->
    ascii_param (Query.limit (Req.query req)) ->
    1 <= P -> 1 <= L -> P * L <= maxSafe ->
    handle toPropertyKey uuid req products =
    (products, Res.mk 200 (Results (length kept) P L (spec_page kept P L))))).
Proof.
  intros Hr Hreach Hc Hne _ _ kept P L. apply reachable_valid in Hreach.
  assert (Hf : filterByCategory (Some c) products = inr kept).
  { unfold filterByCategory. rewrite given_nonempty by assumption.
    now apply byCategory_valid. }
  split; [exact Hf|]. split; [|split].
  - intros p. unfold category_matches. split.
    + intros H.
      destruct (Obj.get "category" p) as [[| | |s| |]|]; try discriminate.
      apply String.eqb_eq in H. eauto.
    + intros (s & -> & H). now apply String.eqb_eq.
  - intros p. apply filter_elem_of.
  - intros Hs. rewrite (handle_getProducts toPropertyKey req products uuid id Hr).
    unfold filterProducts. rewrite Hc, Hf. cbn [bind].
    unfold filterByStock. rewrite Hs. cbn [fst snd].
    split; [reflexivity|]. split; [reflexivity|].
    intros _ _ HP HL _.
    assert (H0 : 0 <= (P - 1) * L).
    { clear -HP HL. clearbody P L. apply Z.mul_nonneg_nonneg; lia. }
    unfold paginate. fold P L. now rewrite slice_spec_page.
Qed.

Lemma category_filter_keeps_matching_witness :
  let req := get_ ["api"; "products"] (Query.mk (Some "KITCHEN") None None None None) in
  routed req GET (Path ["api"; "products"] false) None /\
  reachable throwingKeys seed /\
  Query.category (Req.query req) = Some "KITCHEN" /\ "KITCHEN" <> EmptyString /\
  ascii_only "KITCHEN" = true /\ Forall (ascii_field "category") seed /\
  filterByCategory (Some "KITCHEN") seed = inr [coffeeMaker] /\
  handle throwingKeys uuid1 req seed =
  (seed, Res.mk 200 (Results 1 1 10 [coffeeMaker])).
Proof.
  cbv zeta.
  assert (R : routed (get_ ["api"; "products"]
                        (Query.mk (Some "KITCHEN") None None None None))
                GET (Path ["api"; "products"] false) None) by (split; reflexivity).
  assert (N : "KITCHEN" <> EmptyString) by discriminate.
  assert (A : Forall (ascii_field "category") seed).
  { repeat constructor; intros s H; vm_compute in H; injection H as <-;
      reflexivity. }
  assert (H1 : 1 <= intOr 1 None) by (apply Z.leb_le; reflexivity).
  assert (H2 : 1 <= intOr 10 None) by (apply Z.leb_le; reflexivity).
  assert (H3 : intOr 1 None * intOr 10 None <= maxSafe)
    by (apply Z.leb_le; reflexivity).
  refine (conj R (conj (reachable_seed _) (conj eq_refl (conj N
            (conj eq_refl (conj A _)))))).
  pose proof (category_filter_keeps_matching throwingKeys uuid1 _ seed None
                "KITCHEN" R (reachable_seed _) eq_refl N eq_refl A)
    as (Hf & _ & _ & Hh).
  split; [exact Hf|].
  exact (proj2 (proj2 (Hh eq_refl)) ltac:(discriminate) ltac:(discriminate)
           H1 H2 H3).
Defined.

(** ** Invariants of the store *)

(** X10. Every record of every reachable store obeys the field rules of
    the validation middleware: [name], [description] and [category] are
    strings that are not empty, [price] is a number that is neither
    [NaN] nor zero nor below zero, and [inStock] is a boolean. *)
Theorem stored_records_obey_field_rules
  (toPropertyKey : json -> option string) (products : store) p :
  reachable toPropertyKey products -> p ∈ products ->
  has_text "name" p /\ has_text "description" p /\ has_price p /\
  has_text "category" p /\ has_flag p.
Proof.
  intros Hreach Hp. apply reachable_valid in Hreach.
  rewrite Forall_forall in Hreach. now apply valid_fields, Hreach.
Qed.

Lemma stored_records_obey_field_rules_witness :
  let products := fst (handle throwingKeys uuid1 (post_ secret (JObj (gadget "tools")))
                         seed) in
  let created := ("id", JStr uuid1) :: gadget "tools" in
  reachable throwingKeys products /\ created ∈ products /\
  has_text "name" created /\ has_text "description" created /\ has_price created /\
  has_text "category" created /\ has_flag created.
Proof.
  cbv zeta.
  assert (R : reachable throwingKeys
                (fst (handle throwingKeys uuid1 (post_ secret (JObj (gadget "tools")))
                        seed)))
    by apply reachable_step, reachable_seed.
  assert (I : (("id", JStr uuid1) :: gadget "tools") ∈
              fst (handle throwingKeys uuid1 (post_ secret (JObj (gadget "tools")))
                     seed)).
  { do 3 right. left. }
  refine (conj R (conj I _)).
  exact (stored_records_obey_field_rules throwingKeys _ _ R I).
Defined.

(** X11. The store changes only through an authenticated [POST], [PUT]
    or [DELETE]: a request without the secret, and every [GET] and
    [PATCH], leaves the store exactly as it was, whatever it is answered. *)
Theorem store_changes_only_by_keyed_writes
  (toPropertyKey : json -> option string) uuid req (products : store) :
  Req.apiKey req <> secret \/ Req.method req = GET \/ Req.method req = PATCH ->
  fst (handle toPropertyKey uuid req products) = products.
Proof.
  intros [Hk|H]; apply handle_unchanged; [left|right; exact H].
  destruct (authorized req) eqn:E; [|reflexivity].
  apply authorized_secret in E. contradiction.
Qed.

Lemma store_changes_only_by_keyed_writes_witness :
  (Req.apiKey (post_ (Some "guess") (JObj (gadget "tools"))) <> secret \/
   Req.method (post_ (Some "guess") (JObj (gadget "tools"))) = GET \/
   Req.method (post_ (Some "guess") (JObj (gadget "tools"))) = PATCH) /\
  fst (handle throwingKeys uuid1 (post_ (Some "guess") (JObj (gadget "tools"))) seed) =
  seed.
Proof.
  assert (K : Req.apiKey (post_ (Some "guess") (JObj (gadget "tools"))) <> secret)
    by discriminate.
  refine (conj (or_introl K) _).
  exact (store_changes_only_by_keyed_writes throwingKeys uuid1 _ seed (or_introl K)).
Defined.

(** ** The shape of every response *)

(** X12. For the requests of the model, that is a [GET], [POST], [PUT],
    [DELETE] or [PATCH] whose body, if it has one, the JSON parser
    accepted, the response, whatever the store, is of one of three kinds:
    a success (200 with a body, 201 with the created record, 204 without
    a body); a failure in the envelope, whose [statusCode] is the status
    of the response and one of 400, 401, 404 and 500, with a name and a
    message that are not empty; or, for the requests that match no route
    and only for them, the default 404 page of the framework.  A body
    that the parser refuses is answered in the envelope too, with the
    status of the parser's error (400, 413), which is outside this
    statement, as are [HEAD] and [OPTIONS]. *)
Theorem responses_are_of_three_kinds
  (toPropertyKey : json -> option string) uuid req (products : store) :
  let r := snd (handle toPropertyKey uuid req products) in
  (success r = true \/ failure r = true \/
   (unrouted req /\
    r = Res.mk 404 (DefaultErrorPage (NotFoundError "Endpoint not found")))) /\
  (unrouted req -> success r = false /\ failure r = false).
Proof.
  cbv zeta. split; [apply handle_answer|].
  intros Hu. now rewrite (unrouted_default_page toPropertyKey uuid req products Hu).
Qed.

Lemma responses_are_of_three_kinds_witness :
  let req := Req.mk PATCH ["api"; "products"] secret Query.none (JObj []) in
  unrouted req /\
  success (snd (handle throwingKeys uuid1 req seed)) = false /\
  failure (snd (handle throwingKeys uuid1 req seed)) = false.
Proof.
  cbv zeta.
  assert (U : unrouted (Req.mk PATCH ["api"; "products"] secret Query.none (JObj []))).
  { unfold unrouted, routes. repeat constructor; cbn; discriminate. }
  refine (conj U _).
  exact (proj2 (responses_are_of_three_kinds throwingKeys uuid1 _ seed) U).
Defined.

(** ** Pages *)







(** ** Statistics on every reachable store *)

Lemma countCategories_total (toPropertyKey : json -> option string)
  (products : store) (categories : props count) :
  Forall valid products ->
  exists categories', countCategories toPropertyKey categories products = inr categories'.
Proof.
  intros Hv. revert categories.
  induction Hv as [|p r Hp _ IH]; intros categories; cbn [countCategories]; [eauto|].
  destruct (valid_category p Hp) as (c & Hc & _).
  unfold categoryKey. rewrite Hc. cbn [bind]. apply IH.
Qed.

(** X15. [GET /api/products/stats] on a reachable store always answers
    200, whatever the names of the categories: [totalProducts] is the
    number of records, [inStock] the number of records whose [inStock] is
    [true], [outOfStock] the number of those whose [inStock] is [false],
    and the two add up to [totalProducts].  The store is left as it was. *)
Theorem stats_totals
  (toPropertyKey : json -> option string) uuid req (products : store) id :
  routed req GET (Path ["api"; "products"; "stats"] false) id ->
  reachable toPropertyKey products ->
  exists inStock outOfStock categories,
    handle toPropertyKey uuid req products =
    (products, Res.mk 200 (Stats (length products) inStock outOfStock categories)) /\
    inStock =
      length (List.filter (fun p => is_bool true (Obj.get "inStock" p)) products) /\
    outOfStock =
      length (List.filter (fun p => is_bool false (Obj.get "inStock" p)) products) /\
    (inStock + outOfStock)%nat = length products.
Proof.
  intros Hr Hreach. apply reachable_valid in Hreach.
  destruct (countCategories_total toPropertyKey products [] Hreach) as [cats Hc].
  rewrite (handle_getStats toPropertyKey req products uuid id Hr).
  unfold getStats. rewrite Hc.
  eexists _, _, cats. split; [reflexivity|].
  assert (Hin : forall b,
            List.filter (fun p => is_bool b (Obj.get "inStock" p)) products =
            List.filter (fun p => Bool.eqb (truthy (Obj.get "inStock" p)) b) products).
  { intros b. apply filter_ext_valid; [assumption|].
    intros p Hp. destruct (valid_inStock p Hp) as [x ->]. reflexivity. }
  split; [|split].
  - rewrite Hin. apply (f_equal (@length obj)), filter_ext_valid; [assumption|].
    intros p _. now destruct (truthy _).
  - rewrite Hin. apply (f_equal (@length obj)), filter_ext_valid; [assumption|].
    intros p _. now destruct (truthy _).
  - apply stock_counters_partition.
Qed.

Lemma stats_totals_witness :
  routed (get_ ["api"; "products"; "stats"] Query.none) GET
         (Path ["api"; "products"; "stats"] false) None /\
  reachable throwingKeys toStringStore /\
  exists inStock outOfStock categories,
    handle throwingKeys uuid1 (get_ ["api"; "products"; "stats"] Query.none)
           toStringStore =
    (toStringStore, Res.mk 200 (Stats 5 inStock outOfStock categories)) /\
    (inStock + outOfStock)%nat = 5%nat.
Proof.
  assert (R : routed (get_ ["api"; "products"; "stats"] Query.none) GET
                (Path ["api"; "products"; "stats"] false) None)
    by (split; reflexivity).
  assert (S : reachable throwingKeys toStringStore).
  { exact (reachable_step throwingKeys uuid2
             (post_ secret (JObj (gadget "toString"))) _
             (reachable_step throwingKeys uuid1
                (post_ secret (JObj (gadget "toString"))) seed
                (reachable_seed throwingKeys))). }
  refine (conj R (conj S _)).
  destruct (stats_totals throwingKeys uuid1 _ toStringStore None R S)
    as (i & o & c & H & _ & _ & Hsum).
  exists i, o, c. split; [exact H|exact Hsum].
Defined.

(** ** Witnesses of the earlier lemmas *)

Lemma seed_ids_distinct : NoDup (ids seed).
Proof.
  cbn. repeat (apply NoDup_cons; split;
               [rewrite ?not_elem_of_cons; repeat split;
                try discriminate; apply not_elem_of_nil|]).
  apply NoDup_nil_2.
Qed.

Lemma uuid1_fresh : Some (JStr uuid1) ∉ ids seed.
Proof.
  cbn. rewrite ?not_elem_of_cons. repeat split; try discriminate.
  apply not_elem_of_nil.
Qed.

Lemma unique_ids_step_witness :
  NoDup (ids seed) /\
  (Some (JStr uuid1) ∉ ids seed) /\
  (Req.method (post_ secret (JObj (gadget "tools"))) = POST ->
   Obj.get "id" (own_props (Req.body (post_ secret (JObj (gadget "tools"))))) = None) /\
  NoDup (ids (seed ++ [("id", JStr uuid1) :: gadget "tools"])%list).
Proof.
  refine (conj seed_ids_distinct (conj uuid1_fresh (conj (fun _ => eq_refl) _))).
  exact (unique_ids_step throwingKeys uuid1 (post_ secret (JObj (gadget "tools")))
           seed seed_ids_distinct uuid1_fresh (fun _ => eq_refl)).
Defined.

Lemma create_get_roundtrip_witness :
  let req := post_ secret (JObj (gadget "tools")) in
  let fetch := get_ ["api"; "products"; uuid1] Query.none in
  let created := ("id", JStr uuid1) :: gadget "tools" in
  routed req POST (Path ["api"; "products"] false) None /\
  Req.apiKey req = secret /\
  Req.body req = JObj (gadget "tools") /\
  valid (gadget "tools") /\
  Obj.get "id" (gadget "tools") = None /\
  (Some (JStr uuid1) ∉ ids seed) /\
  routed fetch GET (Path ["api"; "products"] true) (Some uuid1) /\
  Str.toLowerCase uuid1 <> "search" /\ Str.toLowerCase uuid1 <> "stats" /\
  handle throwingKeys uuid2 fetch (seed ++ [created])%list =
  ((seed ++ [created])%list, Res.mk 200 (Product created)).
Proof.
  cbv zeta.
  assert (R : routed (post_ secret (JObj (gadget "tools"))) POST
                (Path ["api"; "products"] false) None) by (split; reflexivity).
  assert (F : routed (get_ ["api"; "products"; uuid1] Query.none) GET
                (Path ["api"; "products"] true) (Some uuid1)) by (split; reflexivity).
  assert (N1 : Str.toLowerCase uuid1 <> "search") by discriminate.
  assert (N2 : Str.toLowerCase uuid1 <> "stats") by discriminate.
  refine (conj R (conj eq_refl (conj eq_refl (conj eq_refl (conj eq_refl
           (conj uuid1_fresh (conj F (conj N1 (conj N2 _))))))))).
  exact (proj2 (proj2 (proj2
           (create_get_roundtrip throwingKeys uuid1 uuid2 _ _ seed (gadget "tools")
              R eq_refl eq_refl eq_refl eq_refl uuid1_fresh F N1 N2)))).
Defined.

Lemma seed_plain : plain_categories seed.
Proof.
  unfold plain_categories.
  repeat (apply Forall_cons; split;
          [intros c H; destruct (inherited c) eqn:E; [exfalso|reflexivity];
           unfold inherited, objectPrototypeKeys in E; cbn [existsb] in E;
           repeat (apply orb_prop in E as [E|E];
                   [apply String.eqb_eq in E; subst c; vm_compute in H;
                    discriminate H|]);
           discriminate E|]).
  constructor.
Qed.

Lemma stats_of_plain_store_witness :
  routed (get_ ["api"; "products"; "stats"] Query.none) GET
         (Path ["api"; "products"; "stats"] false) None /\
  reachable throwingKeys seed /\ plain_categories seed /\
  exists categories,
    handle throwingKeys uuid1 (get_ ["api"; "products"; "stats"] Query.none) seed =
    (seed, Res.mk 200 (Stats 3 2 1 categories)) /\
    Obj.get "electronics" categories = Some (Num 2) /\
    Obj.get "Electronics" categories = None /\
    sumCounts categories = Num 3.
Proof.
  assert (R : routed (get_ ["api"; "products"; "stats"] Query.none) GET
                (Path ["api"; "products"; "stats"] false) None)
    by (split; reflexivity).
  refine (conj R (conj (reachable_seed _) (conj seed_plain _))).
  destruct (stats_of_plain_store throwingKeys uuid1 _ None seed R
              (reachable_seed _) seed_plain) as (cats & H & Hget & Hsum).
  exists cats. split; [exact H|]. split; [exact (Hget "electronics")|].
  split; [exact (Hget "Electronics")|exact Hsum].
Defined.

(** ** Creating, in general *)

(** X19. A [POST /api/products] with the secret and a body that passes
    the validation middleware answers 201 with the created record and
    appends that record to the store, after the records that were there,
    which keep their places.  The record has every property of the body,
    extra ones included; its [id] is the body's when the body has one and
    the generated identifier otherwise; and it obeys the field rules. *)
Theorem create_appends_record
  (toPropertyKey : json -> option string) uuid req (products : store) o :
  routed req POST (Path ["api"; "products"] false) None ->
  Req.apiKey req = secret ->
  Req.body req = JObj o ->
  valid o ->
  let created := newProduct uuid (JObj o) in
  handle toPropertyKey uuid req products =
  ((products ++ [created])%list, Res.mk 201 (Product created)) /\
  Obj.get "id" created =
    match Obj.get "id" o with Some v => Some v | None => Some (JStr uuid) end /\
  (forall k, k <> "id" -> Obj.get k created = Obj.get k o) /\
  valid created /\
  (forall i, (i < length products)%nat ->
     (products ++ [created])%list !! i = products !! i) /\
  (products ++ [created])%list !! length products = Some created.
Proof.
  intros Hr Hk Hb Hv created. repeat split.
  - rewrite (handle_create toPropertyKey uuid req products None Hr).
    apply authorized_secret in Hk. rewrite Hk, Hb.
    unfold valid in Hv. now rewrite Hv.
  - apply newProduct_id.
  - intros k Hne. now apply newProduct_get.
  - now apply newProduct_valid.
  - intros i Hi. now apply lookup_app_l.
  - rewrite lookup_app_r by lia. now rewrite Nat.sub_diag.
Qed.

Lemma create_appends_record_witness :
  let o := ("sku", JStr "G-1") :: gadget "tools" in
  let req := post_ secret (JObj o) in
  routed req POST (Path ["api"; "products"] false) None /\
  Req.apiKey req = secret /\ Req.body req = JObj o /\ valid o /\
  handle throwingKeys uuid1 req seed =
  ((seed ++ [newProduct uuid1 (JObj o)])%list,
   Res.mk 201 (Product (newProduct uuid1 (JObj o)))) /\
  Obj.get "id" (newProduct uuid1 (JObj o)) = Some (JStr uuid1) /\
  Obj.get "sku" (newProduct uuid1 (JObj o)) = Some (JStr "G-1").
Proof.
  cbv zeta.
  assert (R : routed (post_ secret (JObj (("sku", JStr "G-1") :: gadget "tools")))
                POST (Path ["api"; "products"] false) None) by (split; reflexivity).
  refine (conj R (conj eq_refl (conj eq_refl (conj eq_refl _)))).
  destruct (create_appends_record throwingKeys uuid1 _ seed
              (("sku", JStr "G-1") :: gadget "tools") R eq_refl eq_refl eq_refl)
    as (H & Hid & Hk & _).
  split; [exact H|]. split; [exact Hid|]. apply Hk. discriminate.
Defined.

(** ** The order of the validation checks *)

Lemma text_rule k o :
  has_text k o <->
  negb (truthy (Obj.get k o)) || negb (jstype_eqb (typeof (Obj.get k o)) TString) = false.
Proof.
  unfold has_text. split.
  - intros (s & -> & Hs). cbn. apply String.eqb_neq in Hs. now rewrite Hs.
  - destruct (Obj.get k o) as [[| | |s| |]|]; cbn; try discriminate;
      rewrite ?orb_true_r; try discriminate.
    intros [H _]%orb_false_elim.
    apply negb_false_iff, negb_true_iff, String.eqb_neq in H. eauto.
Qed.

Lemma price_rule o :
  has_price o <->
  negb (truthy (Obj.get "price" o)) ||
  negb (jstype_eqb (typeof (Obj.get "price" o)) TNumber) ||
  le_zero (Obj.get "price" o) = false.
Proof.
  unfold has_price. split.
  - intros (f & -> & Hnan & Hzero & Hle).
    cbn [truthy typeof jstype_eqb le_zero]. now rewrite Hnan, Hzero, Hle.
  - destruct (Obj.get "price" o) as [[| |f| | |]|];
      cbn [truthy typeof jstype_eqb le_zero negb orb]; try discriminate;
      rewrite ?orb_true_r; try discriminate.
    intros [[H _]%orb_false_elim Hle]%orb_false_elim.
    apply negb_false_iff, negb_true_iff, orb_false_elim in H as [Hzero Hnan].
    eauto 6.
Qed.

Lemma flag_rule o :
  has_flag o <-> negb (jstype_eqb (typeof (Obj.get "inStock" o)) TBoolean) = false.
Proof.
  unfold has_flag. split.
  - now intros (b & ->).
  - destruct (Obj.get "inStock" o) as [[| b | | | |]|]; cbn; try discriminate. eauto.
Qed.

Lemma broken_rule (P : Prop) (b : bool) : (P <-> b = false) -> ~ P -> b = true.
Proof. intros H N. destruct b; [reflexivity|]. exfalso. now apply N, H. Qed.

(** X20. The validation middleware reports the first rule that an object
    body breaks, in the order [name], [description], [price], [category],
    [inStock], each with its own message, and lets the body pass exactly
    when it breaks none. *)
Theorem first_broken_rule_reported (o : obj) :
  (~ has_text "name" o ->
   validateProduct (JObj o) =
   inl (ValidationError "Product name is required and must be a string")) /\
  (has_text "name" o -> ~ has_text "description" o ->
   validateProduct (JObj o) =
   inl (ValidationError "Product description is required and must be a string")) /\
  (has_text "name" o -> has_text "description" o -> ~ has_price o ->
   validateProduct (JObj o) =
   inl (ValidationError "Product price is required and must be a positive number")) /\
  (has_text "name" o -> has_text "description" o -> has_price o ->
   ~ has_text "category" o ->
   validateProduct (JObj o) =
   inl (ValidationError "Product category is required and must be a string")) /\
  (has_text "name" o -> has_text "description" o -> has_price o ->
   has_text "category" o -> ~ has_flag o ->
   validateProduct (JObj o) =
   inl (ValidationError "Product inStock status is required and must be a boolean")) /\
  (has_text "name" o -> has_text "description" o -> has_price o ->
   has_text "category" o -> has_flag o ->
   validateProduct (JObj o) = inr tt).
Proof.
  unfold validateProduct. cbn [member bind].
  pose proof (text_rule "name" o) as Hn.
  pose proof (text_rule "description" o) as Hd.
  pose proof (price_rule o) as Hp.
  pose proof (text_rule "category" o) as Hc.
  pose proof (flag_rule o) as Hf.
  repeat split; intros.
  all: repeat match goal with
         | H : has_text "name" _ |- _ => apply Hn in H; rewrite H
         | H : has_text "description" _ |- _ => apply Hd in H; rewrite H
         | H : has_price _ |- _ => apply Hp in H; rewrite H
         | H : has_text "category" _ |- _ => apply Hc in H; rewrite H
         | H : has_flag _ |- _ => apply Hf in H; rewrite H
         | H : ~ has_text "name" _ |- _ => apply (broken_rule _ _ Hn) in H; rewrite H
         | H : ~ has_text "description" _ |- _ =>
             apply (broken_rule _ _ Hd) in H; rewrite H
         | H : ~ has_price _ |- _ => apply (broken_rule _ _ Hp) in H; rewrite H
         | H : ~ has_text "category" _ |- _ =>
             apply (broken_rule _ _ Hc) in H; rewrite H
         | H : ~ has_flag _ |- _ => apply (broken_rule _ _ Hf) in H; rewrite H
         end.
  all: reflexivity.
Qed.

Lemma first_broken_rule_reported_witness :
  let o : obj := [("name", JStr "Gadget"); ("price", JNum (-5)%float)] in
  has_text "name" o /\ ~ has_text "description" o /\
  validateProduct (JObj o) =
  inl (ValidationError "Product description is required and must be a string").
Proof.
  cbv zeta.
  assert (N : has_text "name" [("name", JStr "Gadget"); ("price", JNum (-5)%float)]).
  { exists "Gadget". split; [reflexivity|discriminate]. }
  assert (D : ~ has_text "description"
                [("name", JStr "Gadget"); ("price", JNum (-5)%float)]).
  { intros (s & H & _). discriminate H. }
  refine (conj N (conj D _)).
  exact (proj1 (proj2 (first_broken_rule_reported _)) N D).
Defined.
